(** * agent_service.py: the agent session wrapper

    A shallow embedding of [AgentService] (src/agent_service.py) and the
    properties of its event-processing loop: the construction of the prompt,
    the dispatch of the nodes of a run, the accumulation of text deltas, tool
    calls and tool results in the response record, and the handling of
    exceptions.

    The service consumes three collaborators that are not code of the
    repository: the agent framework (its constructor, its run iterator and
    the event stream of each node), the [json] serializer, and the caller's
    callbacks.  The embedding fixes their interface only.  A run and a
    stream are scripts: the items they yield, then how the iteration ends; a
    node also says how leaving the context of its stream ends, which the
    handlers do after their block.  The constructor, the run of an agent and
    the serializer are members of the class [Framework].  A callback is a
    function that returns or raises.  Python objects are values of [pyval],
    so the [hasattr] probes of the source are lookups in the attribute list
    of an object.

    The scoped session ([__aenter__] and [__aexit__]) delegates to the
    context manager of the framework's tool servers, whose behaviour is the
    class [ToolServers].  Logging is not modelled. *)

From stdpp Require Import base option list strings gmap pretty.
From Stdlib Require Import ZArith Ascii.

Set Warnings "-register-all".

(** ** Python values, exceptions and the built-ins the service uses *)

Module Py.

(** The objects the service meets.  A [str] is a [string] whose characters
    are code points below 256; a [dict] with [str] keys is an association
    list in insertion order; [PyObj cls attrs] is an instance of class [cls]
    with the data attributes [attrs]. *)
Inductive pyval : Type :=
  | PyNone
  | PyBool (b : bool)
  | PyInt (z : Z)
  | PyStr (s : string)
  | PyList (l : list pyval)
  | PyDict (d : list (string * pyval))
  | PyObj (cls : string) (attrs : list (string * pyval)).

(** A raised exception: its class name, whether the class derives from
    [Exception] (as opposed to [BaseException] only: [KeyboardInterrupt],
    [SystemExit], [asyncio.CancelledError], ...), and [str(e)]. *)
Record exn : Type := Exn {
  exn_type : string;
  is_Exception : bool;
  exn_str : string
}.

Inductive outcome (A : Type) : Type :=
  | Returns (a : A)
  | Raises (e : exn).
Arguments Returns {A} a.
Arguments Raises {A} e.

Definition quote : string := String (ascii_of_nat 39) EmptyString.
Definition dquote : string := String (ascii_of_nat 34) EmptyString.
Definition newline : string := String (ascii_of_nat 10) EmptyString.

Definition ValueError (msg : string) : exn := Exn "ValueError" true msg.
Definition TypeError (msg : string) : exn := Exn "TypeError" true msg.
Definition AttributeError (msg : string) : exn := Exn "AttributeError" true msg.
Definition IndexError (msg : string) : exn := Exn "IndexError" true msg.
Definition KeyError (msg : string) : exn := Exn "KeyError" true msg.

(** [type(v).__name__] *)
Definition type_name (v : pyval) : string :=
  match v with
  | PyNone => "NoneType"
  | PyBool _ => "bool"
  | PyInt _ => "int"
  | PyStr _ => "str"
  | PyList _ => "list"
  | PyDict _ => "dict"
  | PyObj cls _ => cls
  end.

(** [bool(v)]: the test of [if v:] and of [not v]. *)
Definition truthy (v : pyval) : bool :=
  match v with
  | PyNone => false
  | PyBool b => b
  | PyInt z => negb (z =? 0)%Z
  | PyStr s => negb (String.eqb s "")
  | PyList l => match l with [] => false | _ => true end
  | PyDict d => match d with [] => false | _ => true end
  | PyObj _ _ => true
  end.

Fixpoint assoc (name : string) (attrs : list (string * pyval)) : option pyval :=
  match attrs with
  | [] => None
  | (k, v) :: rest => if String.eqb k name then Some v else assoc name rest
  end.

(** The attribute [name] of [v], for the names the service probes ([delta],
    [content_delta], [part], [tool_name], [args], [result], [content],
    [text]): none of them is an attribute of a built-in value. *)
Definition getattr_opt (v : pyval) (name : string) : option pyval :=
  match v with
  | PyObj _ attrs => assoc name attrs
  | _ => None
  end.

Definition hasattr (v : pyval) (name : string) : bool :=
  bool_decide (is_Some (getattr_opt v name)).

Definition no_attribute (v : pyval) (name : string) : exn :=
  AttributeError
    (quote +:+ type_name v +:+ quote +:+ " object has no attribute "
       +:+ quote +:+ name +:+ quote).

(** [v.name] *)
Definition getattr (v : pyval) (name : string) : outcome pyval :=
  match getattr_opt v name with
  | Some a => Returns a
  | None => Raises (no_attribute v name)
  end.

(** [str.isspace] on one character, for code points below 256. *)
Definition isspace (c : ascii) : bool :=
  let n := nat_of_ascii c in
  (((9 <=? n) && (n <=? 13)) || ((28 <=? n) && (n <=? 32))
   || (n =? 133) || (n =? 160))%nat.

Fixpoint lstrip (s : string) : string :=
  match s with
  | EmptyString => EmptyString
  | String c rest => if isspace c then lstrip rest else s
  end.

Fixpoint rstrip (s : string) : string :=
  match s with
  | EmptyString => EmptyString
  | String c rest =>
      match rstrip rest with
      | EmptyString => if isspace c then EmptyString else String c EmptyString
      | kept => String c kept
      end
  end.

(** [s.strip()] *)
Definition strip (s : string) : string := rstrip (lstrip s).

(** [v.strip()]: a method of [str]; an object carries data attributes only. *)
Definition call_strip (v : pyval) : outcome string :=
  match v with
  | PyStr s => Returns (strip s)
  | PyObj _ attrs =>
      match assoc "strip" attrs with
      | Some m =>
          Raises (TypeError (quote +:+ type_name m +:+ quote
                               +:+ " object is not callable"))
      | None => Raises (no_attribute v "strip")
      end
  | _ => Raises (no_attribute v "strip")
  end.

(** [s + v] for a [str] [s], as in [collected_content += delta]. *)
Definition str_add (s : string) (v : pyval) : outcome string :=
  match v with
  | PyStr d => Returns (s +:+ d)
  | _ =>
      Raises (TypeError ("can only concatenate str (not " +:+ dquote
                           +:+ type_name v +:+ dquote +:+ ") to str"))
  end.

(** [v[0]] *)
Definition first_item (v : pyval) : outcome pyval :=
  match v with
  | PyList (x :: _) => Returns x
  | PyList [] => Raises (IndexError "list index out of range")
  | PyStr (String c _) => Returns (PyStr (String c EmptyString))
  | PyStr EmptyString => Raises (IndexError "string index out of range")
  | PyDict _ => Raises (KeyError "0")
  | _ =>
      Raises (TypeError (quote +:+ type_name v +:+ quote
                           +:+ " object is not subscriptable"))
  end.

(** *** [json.dumps(obj, indent=2)]

    The encoder of CPython's [json] module with its defaults
    ([ensure_ascii=True], item separator [","], key separator [": "]) on the
    values of [pyval]; an object of another class is not serializable. *)

Definition hex_digit (n : nat) : string :=
  String (nth n (String.list_ascii_of_string "0123456789abcdef") "0"%char) EmptyString.

Definition escape_char (c : ascii) : string :=
  let n := nat_of_ascii c in
  if (n =? 34)%nat then "\" +:+ dquote
  else if (n =? 92)%nat then "\\"
  else if (n =? 10)%nat then "\n"
  else if (n =? 13)%nat then "\r"
  else if (n =? 9)%nat then "\t"
  else if (n =? 8)%nat then "\b"
  else if (n =? 12)%nat then "\f"
  else if ((32 <=? n) && (n <=? 126))%nat then String c EmptyString
  else "\u00" +:+ hex_digit (n / 16) +:+ hex_digit (n mod 16).

Fixpoint escape (s : string) : string :=
  match s with
  | EmptyString => EmptyString
  | String c rest => escape_char c +:+ escape rest
  end.

Definition encode_str (s : string) : string := dquote +:+ escape s +:+ dquote.

Fixpoint indentation (level : nat) : string :=
  match level with
  | O => EmptyString
  | S l => "  " +:+ indentation l
  end.

Fixpoint join (sep : string) (parts : list string) : string :=
  match parts with
  | [] => EmptyString
  | [p] => p
  | p :: rest => p +:+ sep +:+ join sep rest
  end.

Definition block (opening closing : string) (level : nat)
    (parts : list string) : string :=
  opening +:+ newline +:+ indentation (S level)
    +:+ join ("," +:+ newline +:+ indentation (S level)) parts
    +:+ newline +:+ indentation level +:+ closing.

Fixpoint encode (level : nat) (v : pyval) : outcome string :=
  match v with
  | PyNone => Returns "null"
  | PyBool true => Returns "true"
  | PyBool false => Returns "false"
  | PyInt z => Returns (pretty z)
  | PyStr s => Returns (encode_str s)
  | PyList [] => Returns "[]"
  | PyList l =>
      let fix items (l : list pyval) : outcome (list string) :=
        match l with
        | [] => Returns []
        | x :: rest =>
            match encode (S level) x with
            | Raises e => Raises e
            | Returns s =>
                match items rest with
                | Raises e => Raises e
                | Returns ss => Returns (s :: ss)
                end
            end
        end in
      match items l with
      | Raises e => Raises e
      | Returns parts => Returns (block "[" "]" level parts)
      end
  | PyDict [] => Returns "{}"
  | PyDict d =>
      let fix members (d : list (string * pyval)) : outcome (list string) :=
        match d with
        | [] => Returns []
        | (k, x) :: rest =>
            match encode (S level) x with
            | Raises e => Raises e
            | Returns s =>
                match members rest with
                | Raises e => Raises e
                | Returns ss => Returns ((encode_str k +:+ ": " +:+ s) :: ss)
                end
            end
        end in
      match members d with
      | Raises e => Raises e
      | Returns parts => Returns (block "{" "}" level parts)
      end
  | PyObj cls _ =>
      Raises (TypeError ("Object of type " +:+ cls
                           +:+ " is not JSON serializable"))
  end.

Definition dumps_indent2 (obj : pyval) : outcome string := encode 0 obj.

End Py.
Export Py.

(** ** The collaborators *)

(** An asynchronous iterator as the service sees it: the items it yields,
    then [StopAsyncIteration] ([stop = None]) or an exception.  A script is
    finite: an iterator that never ends is outside the embedding.  Entering
    the surrounding [async with] and failing there is the script that yields
    nothing and stops with that exception.  For the run, whose [async with]
    holds nothing but the loop, failing on leaving it after the last node is
    the script that stops with that exception after the last node. *)
Record script (A : Type) : Type := Script {
  items : list A;
  stop : option exn
}.
Arguments Script {A} items stop.
Arguments items {A} s.
Arguments stop {A} s.

(** A node of a run: the answers of [Agent.is_model_request_node] and
    [Agent.is_call_tools_node], the events of [node.stream(ctx)], and what
    leaving [async with node.stream(ctx)] does once its block has come to
    its end: it returns ([None]) or raises.  When the block raises, the
    exception that leaves the [async with] is the one of the block. *)
Record node : Type := Node {
  is_model_request_node : bool;
  is_call_tools_node : bool;
  stream : script pyval;
  stream_exit : option exn
}.

Record MCPServerStdio : Type := {
  command : string;
  args : list string
}.

(** What the service asks of its collaborators, in the order it asks. *)
Inductive call : Type :=
  | NewMCPServerStdio (server : MCPServerStdio)
  | NewAgent (model_name : string) (mcp_servers : list MCPServerStdio)
      (system_prompt : string)
  | AgentIter (prompt : string)
  | OnAssistantMessage (delta : pyval)
  | OnToolCall (tool_call : pyval)
  | OnToolResult (result : pyval).

(** The agent framework and the serializer. *)
Class Framework : Type := {
  Agent : Type;
  sys_executable : string;
  Agent_new : string → list MCPServerStdio → string → outcome Agent;
  Agent_iter : Agent → string → script node;
  json_dumps : pyval → outcome string
}.

(** A caller's callback: given the calls made so far in this
    [process_input] and its argument, it returns ([None]) or raises.  It
    observes its argument.  The source hands [on_tool_call] the very [dict]
    it has appended to [tool_calls], and [on_tool_result] the very object it
    has appended to [tool_results]: a callback that updates what it is
    handed is outside the embedding, and what the embedding says of the
    content of an entry is said of the entry as the service built it. *)
Definition callback : Type := list call → pyval → option exn.

Record callbacks : Type := Callbacks {
  on_assistant_message : option callback;
  on_tool_call : option callback;
  on_tool_result : option callback
}.

(** ** The response record and the state of one call *)

Record Response : Type := {
  assistant_content : string;
  tool_calls : list pyval;
  tool_results : list pyval;
  error : option string
}.

Record state : Type := State {
  response : Response;
  calls : list call
}.

(** Statements of the service: they read and update the response record,
    append to the calls, and return or raise; the state reached when an
    exception is raised is kept, as a Python [dict] keeps its updates. *)
Definition M (A : Type) : Type := state → outcome A * state.

#[export] Instance M_ret : MRet M := λ A a st, (Returns a, st).
#[export] Instance M_bind : MBind M := λ A B k m st,
  match m st with
  | (Returns a, st') => k a st'
  | (Raises e, st') => (Raises e, st')
  end.

Definition lift {A} (o : outcome A) : M A := λ st, (o, st).
Definition raise {A} (e : exn) : M A := lift (Raises e).

Definition set_assistant_content (s : string) : M unit := λ st,
  let r := response st in
  (Returns (),
   State {| assistant_content := s; tool_calls := tool_calls r;
            tool_results := tool_results r; error := error r |} (calls st)).

Definition append_tool_call (tool_call : pyval) : M unit := λ st,
  let r := response st in
  (Returns (),
   State {| assistant_content := assistant_content r;
            tool_calls := tool_calls r ++ [tool_call];
            tool_results := tool_results r; error := error r |} (calls st)).

Definition append_tool_result (result : pyval) : M unit := λ st,
  let r := response st in
  (Returns (),
   State {| assistant_content := assistant_content r;
            tool_calls := tool_calls r;
            tool_results := tool_results r ++ [result]; error := error r |}
         (calls st)).

Definition set_error (msg : string) (r : Response) : Response :=
  {| assistant_content := assistant_content r; tool_calls := tool_calls r;
     tool_results := tool_results r; error := Some msg |}.

(** [if cb: cb(arg)] *)
Definition invoke (cb : option callback) (entry : pyval → call) (arg : pyval)
    : M unit := λ st,
  match cb with
  | None => (Returns (), st)
  | Some f =>
      let st' := State (response st) (calls st ++ [entry arg]) in
      match f (calls st) arg with
      | None => (Returns (), st')
      | Some e => (Raises e, st')
      end
  end.

Fixpoint for_each {A S} (body : A → S → M S) (xs : list A) (acc : S) : M S :=
  match xs with
  | [] => mret acc
  | x :: rest => acc' ← body x acc; for_each body rest acc'
  end.

(** [async for x in s: acc = body(x, acc)] *)
Definition async_for {A S} (s : script A) (body : A → S → M S) (acc : S)
    : M S :=
  acc' ← for_each body (items s) acc;
  match stop s with
  | None => mret acc'
  | Some e => raise e
  end.

(** ** AgentService *)

Section AgentService.
Context `{Framework}.

Record AgentService : Type := {
  agent : Agent
}.

Definition default_system_prompt : string :=
  "You are a helpful assistant. Only use tools if needed for a user query.".

(** [AgentService.__init__], run in the process environment [environ]
    (what [os.getenv] reads, after [load_dotenv]); the second component is
    what it has constructed. *)
Definition __init__ (environ : gmap string string) (system_prompt : string)
    : outcome AgentService * list call :=
  let model_name := environ !! "BASE_MODEL" in
  if negb (truthy (from_option PyStr PyNone model_name)) then
    (Raises (ValueError "BASE_MODEL environment variable is required"), [])
  else
    let server := {| command := sys_executable; args := ["mcp_server.py"] |} in
    let model := default "" model_name in
    let log := [NewMCPServerStdio server; NewAgent model [server] system_prompt] in
    match Agent_new model [server] system_prompt with
    | Returns a => (Returns {| agent := a |}, log)
    | Raises e => (Raises e, log)
    end.

Definition _prepare_input_with_history (user_input : string) (history : pyval)
    : outcome string :=
  if negb (truthy history) then Returns user_input
  else
    match json_dumps history with
    | Returns dumped =>
        Returns ("Previous conversation:" +:+ newline +:+ dumped +:+ newline
                   +:+ newline +:+ "Current query: " +:+ user_input)
    | Raises e => Raises e
    end.

(** [event.delta.content_delta], when both attributes exist. *)
Definition content_delta (event : pyval) : option pyval :=
  delta ← getattr_opt event "delta"; getattr_opt delta "content_delta".

(** The body of the loop of [_handle_model_request]. *)
Definition model_event (on_assistant_message : option callback)
    (event : pyval) (collected_content : string) : M string :=
  match content_delta event with
  | Some delta =>
      if truthy delta then
        collected ← lift (str_add collected_content delta);
        invoke on_assistant_message OnAssistantMessage delta;;
        mret collected
      else mret collected_content
  | None => mret collected_content
  end.

(** [async with node.stream(ctx) as stream: block] *)
Definition with_stream (n : node) (block : M unit) : M unit :=
  block;;
  match stream_exit n with
  | None => mret ()
  | Some e => raise e
  end.

(** The block of the [async with] of [_handle_model_request]: the loop,
    then the assignment to [response["assistant_content"]]. *)
Definition model_request_block (n : node)
    (on_assistant_message : option callback) : M unit :=
  collected_content ←
    async_for (stream n) (model_event on_assistant_message) "";
  set_assistant_content collected_content.

Definition _handle_model_request (n : node)
    (on_assistant_message : option callback) : M unit :=
  with_stream n (model_request_block n on_assistant_message).

(** [event.part], when it exists and has a [tool_name]. *)
Definition tool_call_part (event : pyval) : option pyval :=
  part ← getattr_opt event "part";
  if hasattr part "tool_name" then Some part else None.

(** [event.result], when it exists and has a [content]. *)
Definition tool_result_part (event : pyval) : option pyval :=
  result ← getattr_opt event "result";
  if hasattr result "content" then Some result else None.

(** The body of the loop of [_handle_tool_call]. *)
Definition tool_event (on_tool_call on_tool_result : option callback)
    (event : pyval) (_ : unit) : M unit :=
  match tool_call_part event with
  | Some part =>
      args ← lift (getattr part "args");
      if truthy args then
        stripped ← lift (call_strip args);
        if negb (String.eqb stripped "" || String.eqb stripped "{}") then
          tool_name ← lift (getattr part "tool_name");
          let tool_call := PyDict [("tool_name", tool_name); ("args", args)] in
          append_tool_call tool_call;;
          invoke on_tool_call OnToolCall tool_call
        else mret ()
      else mret ()
  | None =>
      match tool_result_part event with
      | Some result =>
          payload ← lift (getattr result "content");
          segments ← lift (getattr payload "content");
          segment ← lift (first_item segments);
          text ← lift (getattr segment "text");
          append_tool_result text;;
          invoke on_tool_result OnToolResult text
      | None => mret ()
      end
  end.

(** The block of the [async with] of [_handle_tool_call]: the loop. *)
Definition tool_call_block (n : node)
    (on_tool_call on_tool_result : option callback) : M unit :=
  async_for (stream n) (tool_event on_tool_call on_tool_result) ().

Definition _handle_tool_call (n : node)
    (on_tool_call on_tool_result : option callback) : M unit :=
  with_stream n (tool_call_block n on_tool_call on_tool_result).

(** The body of the loop of [_process_agent_run]. *)
Definition process_node (cbs : callbacks) (n : node) (_ : unit) : M unit :=
  if is_model_request_node n then
    _handle_model_request n (on_assistant_message cbs)
  else if is_call_tools_node n then
    _handle_tool_call n (on_tool_call cbs) (on_tool_result cbs)
  else mret ().

Definition _process_agent_run (run : script node) (cbs : callbacks) : M unit :=
  async_for run (process_node cbs) ().

(** [self.agent.iter(prompt)] *)
Definition agent_iter (self : AgentService) (prompt : string)
    : M (script node) := λ st,
  (Returns (Agent_iter (agent self) prompt),
   State (response st) (calls st ++ [AgentIter prompt])).

(** The body of the [try] of [process_input]; [user_input] is a [str], so
    the slice in the log line does not raise. *)
Definition try_body (self : AgentService) (user_input : string)
    (history : pyval) (cbs : callbacks) : M unit :=
  input_with_context ← lift (_prepare_input_with_history user_input history);
  run ← agent_iter self input_with_context;
  _process_agent_run run cbs.

Definition fresh_response : Response :=
  {| assistant_content := ""; tool_calls := []; tool_results := [];
     error := None |}.

(** [process_input]: the record it returns, or the exception that escapes
    it, and the calls it made. *)
Definition process_input (self : AgentService) (user_input : string)
    (history : pyval) (cbs : callbacks) : outcome Response * list call :=
  match try_body self user_input history cbs (State fresh_response []) with
  | (Returns _, st) => (Returns (response st), calls st)
  | (Raises e, st) =>
      if is_Exception e then
        (Returns (set_error (exn_str e) (response st)), calls st)
      else (Raises e, calls st)
  end.

End AgentService.

Arguments AgentService {_}.

(** ** The vocabulary of the properties *)

(** [d1 + ... + dn] *)
Definition concat_str (parts : list string) : string :=
  foldr String.append "" parts.

Definition delta_text (event : pyval) : option string :=
  match content_delta event with
  | Some (PyStr d) => Some d
  | _ => None
  end.

(** The text of a model-request node: the texts its events expose as
    [delta.content_delta], concatenated in order. *)
Definition node_text (n : node) : string :=
  concat_str (omap delta_text (items (stream n))).

(** The tool lists of [r'] are those of [r] with entries added at the end. *)
Definition lists_extended (r r' : Response) : Prop :=
  tool_calls r `prefix_of` tool_calls r'
  ∧ tool_results r `prefix_of` tool_results r'.

(** One step adds at most one entry, at the end. *)
Definition at_most_one_appended {A} (l l' : list A) : Prop :=
  l' = l ∨ ∃ x, l' = l ++ [x].

(** [extends st st']: [st'] is reached from [st] by appending to the tool
    lists and to the calls. *)
Definition extends (st st' : state) : Prop :=
  lists_extended (response st) (response st')
  ∧ calls st `prefix_of` calls st'.

(** The [assistant_content] of the record after the nodes [completed] were
    read to the end of their streams, when it was [current] before: each
    model-request node replaces it by its own text. *)
Definition assistant_text (current : string) (completed : list node) : string :=
  foldl (λ text m, if is_model_request_node m then node_text m else text)
    current completed.

(** The block of the [async with] of the handler of [n]; a node that
    neither predicate recognizes has no handler and opens no stream. *)
Definition node_block (cbs : callbacks) (n : node) : M unit :=
  if is_model_request_node n then
    model_request_block n (on_assistant_message cbs)
  else if is_call_tools_node n then
    tool_call_block n (on_tool_call cbs) (on_tool_result cbs)
  else mret ().

(** What leaving the stream of [n] raises, once the block of its handler
    has come to its end. *)
Definition node_exit (n : node) : option exn :=
  if is_model_request_node n || is_call_tools_node n then stream_exit n
  else None.

(** The nodes whose block comes to its end when [nodes] are processed from
    the state [st]: those before the first node in whose block an exception
    is raised, up to and including the first node whose stream raises when
    it is left. *)
Fixpoint nodes_read (cbs : callbacks) (nodes : list node) (st : state)
    : list node :=
  match nodes with
  | [] => []
  | n :: rest =>
      match node_block cbs n st with
      | (Raises _, _) => []
      | (Returns _, st1) =>
          n :: match node_exit n with
               | Some _ => []
               | None => nodes_read cbs rest st1
               end
      end
  end.

(** The last model-request node of [nodes], if there is one. *)
Definition last_model_request (nodes : list node) : option node :=
  last (filter (λ m, is_model_request_node m = true) nodes).

(** [raised self user_input history cbs e completed st]: in
    [process_input self user_input history cbs] the exception [e] is raised
    in state [st], after the block of each of the nodes [completed] had come
    to its end: by the preparation of the prompt, by the run's iterator
    after its last node, in the block of the node that follows [completed],
    or on leaving the stream of the last node of [completed]. *)
Inductive raised `{Framework} (self : AgentService) (user_input : string)
    (history : pyval) (cbs : callbacks) (e : exn)
    : list node → state → Prop :=
  | raised_in_prompt_preparation :
      _prepare_input_with_history user_input history = Raises e →
      raised self user_input history cbs e [] (State fresh_response [])
  | raised_by_run_iteration prompt st :
      _prepare_input_with_history user_input history = Returns prompt →
      for_each (process_node cbs) (items (Agent_iter (agent self) prompt)) ()
        (State fresh_response [AgentIter prompt]) = (Returns (), st) →
      stop (Agent_iter (agent self) prompt) = Some e →
      raised self user_input history cbs e
        (items (Agent_iter (agent self) prompt)) st
  | raised_in_event_dispatch prompt completed n rest st1 st :
      _prepare_input_with_history user_input history = Returns prompt →
      items (Agent_iter (agent self) prompt) = completed ++ n :: rest →
      for_each (process_node cbs) completed ()
        (State fresh_response [AgentIter prompt]) = (Returns (), st1) →
      node_block cbs n st1 = (Raises e, st) →
      raised self user_input history cbs e completed st
  | raised_on_leaving_stream prompt completed n rest st1 st :
      _prepare_input_with_history user_input history = Returns prompt →
      items (Agent_iter (agent self) prompt) = completed ++ n :: rest →
      for_each (process_node cbs) completed ()
        (State fresh_response [AgentIter prompt]) = (Returns (), st1) →
      node_block cbs n st1 = (Returns (), st) →
      node_exit n = Some e →
      raised self user_input history cbs e (completed ++ [n]) st.

(** A statement that only appends, whether it returns or raises. *)
Definition appends {A} (m : M A) : Prop := ∀ st, extends st (m st).2.

(** The calls [on_assistant_message] receives for the texts [ds]. *)
Definition messages (cb : option callback) (ds : list string) : list call :=
  match cb with
  | Some _ => (λ d, OnAssistantMessage (PyStr d)) <$> filter (λ d, d ≠ "") ds
  | None => []
  end.

Definition with_tool_call (entry : pyval) (r : Response) : Response :=
  {| assistant_content := assistant_content r;
     tool_calls := tool_calls r ++ [entry];
     tool_results := tool_results r; error := error r |}.

Definition with_tool_result (text : pyval) (r : Response) : Response :=
  {| assistant_content := assistant_content r; tool_calls := tool_calls r;
     tool_results := tool_results r ++ [text]; error := error r |}.

(** What [if cb: cb(arg)] does once the record has become [r]. *)
Definition notified (cb : option callback) (entry : pyval → call) (arg : pyval)
    (r : Response) (st : state) : outcome () * state :=
  match cb with
  | None => (Returns (), State r (calls st))
  | Some f =>
      (match f (calls st) arg with
       | None => Returns ()
       | Some e => Raises e
       end,
       State r (calls st ++ [entry arg]))
  end.

(** ** A scripted framework and sample events

    The agent handle of the scripted framework is the run it will yield; its
    serializer is [dumps_indent2]. *)

Definition scripted : Framework := {|
  Agent := script node;
  sys_executable := "/usr/bin/python3";
  Agent_new := λ _ _ _, Returns (Script [] None);
  Agent_iter := λ run _, run;
  json_dumps := dumps_indent2
|}.

Definition service (run : script node) : @AgentService scripted :=
  {| agent := (run : @Agent scripted) |}.

Definition text_delta_event (d : pyval) : pyval :=
  PyObj "PartDeltaEvent"
    [("delta", PyObj "TextPartDelta" [("content_delta", d)])].

Definition part_start_event : pyval :=
  PyObj "PartStartEvent" [("part", PyObj "TextPart" [("content", PyStr "")])].

Definition tool_call_requested (tool_name args : string) : pyval :=
  PyObj "FunctionToolCallEvent"
    [("part", PyObj "ToolCallPart"
                [("tool_name", PyStr tool_name); ("args", PyStr args)])].

Definition tool_result_received (texts : list string) : pyval :=
  PyObj "FunctionToolResultEvent"
    [("result",
      PyObj "ToolReturnPart"
        [("content",
          PyObj "CallToolResult"
            [("content",
              PyList ((λ t, PyObj "TextContent" [("text", PyStr t)])
                        <$> texts))])])].

Definition model_request_node (events : list pyval) (stop : option exn) : node :=
  Node true false (Script events stop) None.

Definition call_tools_node (events : list pyval) (stop : option exn) : node :=
  Node false true (Script events stop) None.

Definition end_node : node := Node false false (Script [] None) None.

Definition RuntimeError (msg : string) : exn := Exn "RuntimeError" true msg.
Definition CancelledError : exn := Exn "CancelledError" false "".

(** Callbacks that record and return. *)
Definition quiet : callback := λ _ _, None.
Definition listening : callbacks :=
  Callbacks (Some quiet) (Some quiet) (Some quiet).
Definition no_callbacks : callbacks := Callbacks None None None.

(** Sample runs: a calculation with one tool call, the same run cut short
    while the answer is streamed, and a stream that fails after one delta. *)

Definition quoted (s : string) : string := dquote +:+ s +:+ dquote.

Definition add_args : string :=
  "{" +:+ quoted "a" +:+ ": 2, " +:+ quoted "b" +:+ ": 2}".

Definition add_call : pyval :=
  PyDict [("tool_name", PyStr "add"); ("args", PyStr add_args)].

Definition thinking_node : node :=
  model_request_node [part_start_event; text_delta_event (PyStr "Adding.")] None.

Definition adding_node : node :=
  call_tools_node
    [tool_call_requested "add" add_args; tool_result_received ["4"]] None.

Definition answer_node : node :=
  model_request_node
    [part_start_event; text_delta_event (PyStr "2+2");
     text_delta_event (PyStr ""); text_delta_event (PyStr " is 4")] None.

Definition answer_cut_short : node :=
  model_request_node [text_delta_event (PyStr "2+2")]
    (Some (RuntimeError "connection lost")).

(** The answer is streamed to its end, then leaving the stream raises. *)
Definition answer_closed_badly : node :=
  Node true false (stream answer_node) (Some (RuntimeError "stream closed")).

Definition run_ok : script node :=
  Script [thinking_node; adding_node; answer_node; end_node] None.

Definition run_closed_badly : script node :=
  Script [thinking_node; adding_node; answer_closed_badly; end_node] None.

Definition run_cut_short : script node :=
  Script [thinking_node; adding_node; answer_cut_short; end_node] None.

Definition run_interrupted : script node :=
  Script [model_request_node [text_delta_event (PyStr "Hel")]
            (Some (RuntimeError "boom"))] None.

Definition run_calculator : script node :=
  Script [model_request_node [text_delta_event (PyStr "4")] None; end_node] None.

Definition run_cancelled : script node := Script [] (Some CancelledError).

Definition run_empty_result : script node :=
  Script [call_tools_node [tool_result_received []] None] None.

Definition final_ok : Response :=
  {| assistant_content := "2+2 is 4"; tool_calls := [add_call];
     tool_results := [PyStr "4"]; error := None |}.

Definition log_ok : list call :=
  [AgentIter "2+2"; OnAssistantMessage (PyStr "Adding.");
   OnToolCall add_call; OnToolResult (PyStr "4");
   OnAssistantMessage (PyStr "2+2"); OnAssistantMessage (PyStr " is 4")].

Definition start : state := State fresh_response [].

Definition sample_history : list pyval :=
  [PyDict [("role", PyStr "user"); ("content", PyStr "1+1")]].

Definition sample_dumped : string :=
  "[" +:+ newline
  +:+ "  {" +:+ newline
  +:+ "    " +:+ quoted "role" +:+ ": " +:+ quoted "user" +:+ "," +:+ newline
  +:+ "    " +:+ quoted "content" +:+ ": " +:+ quoted "1+1" +:+ newline
  +:+ "  }" +:+ newline
  +:+ "]".

(** ** The scoped session

    [__aenter__] and [__aexit__] delegate to the context manager that
    [self.agent.run_mcp_servers()] returns.  Each call of [run_mcp_servers]
    makes a new context; a context is named by its rank of creation, and
    [ToolServers] says how entering and leaving each of them ends. *)

Class ToolServers : Type := {
  context_aenter : nat → option exn;
  context_aexit : nat → option exn → outcome pyval
}.

Inductive session_call : Type :=
  | RunMcpServers
  | ContextEnter (context : nat)
  | ContextExit (context : nat) (exc : option exn).

(** The service object as the session methods see it: its attribute
    [_mcp_context] (absent until [__aenter__] sets it), the number of
    contexts made so far, and the calls made to the framework. *)
Record session : Type := Session {
  _mcp_context : option nat;
  contexts_created : nat;
  session_calls : list session_call
}.

Section Session.
Context `{ToolServers}.

Definition __aenter__ (s : session) : outcome () * session :=
  let context := contexts_created s in
  let s' := Session (Some context) (S context)
              (session_calls s ++ [RunMcpServers; ContextEnter context]) in
  match context_aenter context with
  | None => (Returns (), s')
  | Some e => (Raises e, s')
  end.

(** [exc] stands for [exc_type, exc_val, exc_tb]: the exception the block
    raised, if any.  The method has no [return]: it returns [None]. *)
Definition __aexit__ (exc : option exn) (s : session) : outcome pyval * session :=
  match _mcp_context s with
  | None =>
      (Raises (AttributeError (quote +:+ "AgentService" +:+ quote
                                 +:+ " object has no attribute " +:+ quote
                                 +:+ "_mcp_context" +:+ quote)), s)
  | Some context =>
      let s' := Session (_mcp_context s) (contexts_created s)
                  (session_calls s ++ [ContextExit context exc]) in
      match context_aexit context exc with
      | Returns _ => (Returns PyNone, s')
      | Raises e => (Raises e, s')
      end
  end.

(** [async with service: block], for a block that ends as [block] and does
    not touch the session: [Returns None] stands for a block whose
    exception was suppressed by [__aexit__]. *)
Definition async_with {A} (block : outcome A) (s : session)
    : outcome (option A) * session :=
  match __aenter__ s with
  | (Raises e, s1) => (Raises e, s1)
  | (Returns _, s1) =>
      match block with
      | Returns a =>
          match __aexit__ None s1 with
          | (Returns _, s2) => (Returns (Some a), s2)
          | (Raises e, s2) => (Raises e, s2)
          end
      | Raises e =>
          match __aexit__ (Some e) s1 with
          | (Returns suppress, s2) =>
              if truthy suppress then (Returns None, s2) else (Raises e, s2)
          | (Raises e', s2) => (Raises e', s2)
          end
      end
  end.

End Session.

(** Any use of the session methods: a sequence of calls, each continued
    whether it returned or raised. *)
Inductive session_op : Type :=
  | Aenter
  | Aexit (exc : option exn).

Definition session_step `{ToolServers} (s : session) (op : session_op) : session :=
  match op with
  | Aenter => (__aenter__ s).2
  | Aexit exc => (__aexit__ exc s).2
  end.

Definition session_run `{ToolServers} (ops : list session_op) (s : session)
    : session :=
  foldl session_step s ops.

(** The number of [__aenter__] calls in [ops]. *)
Fixpoint count_enters (ops : list session_op) : nat :=
  match ops with
  | [] => 0
  | Aenter :: rest => S (count_enters rest)
  | Aexit _ :: rest => count_enters rest
  end.

(** [latest_only n log]: with [n] contexts made before, every context
    entered or left in [log] is the one made last. *)
Fixpoint latest_only (n : nat) (log : list session_call) : Prop :=
  match log with
  | [] => True
  | RunMcpServers :: rest => latest_only (S n) rest
  | ContextEnter context :: rest => S context = n ∧ latest_only n rest
  | ContextExit context _ :: rest => S context = n ∧ latest_only n rest
  end.

(** The number of [run_mcp_servers] calls in [log]. *)
Fixpoint contexts_made (log : list session_call) : nat :=
  match log with
  | [] => 0
  | RunMcpServers :: rest => S (contexts_made rest)
  | _ :: rest => contexts_made rest
  end.

(** What holds of the service object after [entered] calls of [__aenter__],
    whatever else was done with it. *)
Definition session_inv (entered : nat) (s : session) : Prop :=
  contexts_created s = entered
  ∧ contexts_made (session_calls s) = entered
  ∧ _mcp_context s = match entered with 0 => None | S k => Some k end
  ∧ (entered = 0 → session_calls s = [])
  ∧ latest_only 0 (session_calls s).

(** ** What a call records, read off the events *)

(** The entry a tool-call event adds to [tool_calls], if any. *)
Definition recorded_call (event : pyval) : option pyval :=
  part ← tool_call_part event;
  match getattr_opt part "tool_name", getattr_opt part "args" with
  | Some tool_name, Some (PyStr a) =>
      if decide (strip a = "" ∨ strip a = "{}") then None
      else Some (PyDict [("tool_name", tool_name); ("args", PyStr a)])
  | _, _ => None
  end.

(** The text a tool-result event adds to [tool_results], if any. *)
Definition recorded_result (event : pyval) : option pyval :=
  match tool_call_part event with
  | Some _ => None
  | None =>
      result ← tool_result_part event;
      payload ← getattr_opt result "content";
      segments ← getattr_opt payload "content";
      match first_item segments with
      | Returns segment => getattr_opt segment "text"
      | Raises _ => None
      end
  end.

(** The events [_handle_tool_call] reads in a run: those of the nodes that
    are tool-call nodes and not model-request nodes. *)
Fixpoint tool_events (nodes : list node) : list pyval :=
  match nodes with
  | [] => []
  | n :: rest =>
      (if is_model_request_node n then []
       else if is_call_tools_node n then items (stream n) else [])
      ++ tool_events rest
  end.

(** What one event of a tool-call node does, from the state [st]. *)
Inductive tool_effect (on_call on_result : option callback) (event : pyval)
    (st : state) : outcome () * state → Prop :=
  | effect_skipped :
      recorded_call event = None → recorded_result event = None →
      tool_effect on_call on_result event st (Returns (), st)
  | effect_failed e :
      tool_effect on_call on_result event st (Raises e, st)
  | effect_call entry :
      recorded_call event = Some entry → recorded_result event = None →
      tool_effect on_call on_result event st
        (notified on_call OnToolCall entry
           (with_tool_call entry (response st)) st)
  | effect_result text :
      recorded_call event = None → recorded_result event = Some text →
      tool_effect on_call on_result event st
        (notified on_result OnToolResult text
           (with_tool_result text (response st)) st).

(** The arguments of the calls of each kind, in order. *)
Definition message_args (lg : list call) : list pyval :=
  omap (λ c, match c with OnAssistantMessage v => Some v | _ => None end) lg.

Definition tool_call_args (lg : list call) : list pyval :=
  omap (λ c, match c with OnToolCall v => Some v | _ => None end) lg.

Definition tool_result_args (lg : list call) : list pyval :=
  omap (λ c, match c with OnToolResult v => Some v | _ => None end) lg.

Definition prompts (lg : list call) : list string :=
  omap (λ c, match c with AgentIter p => Some p | _ => None end) lg.

(** What a supplied callback has been called with, against the list it
    follows. *)
Definition mirrored (cb : option callback) (args recorded : list pyval) : Prop :=
  args = match cb with Some _ => recorded | None => [] end.

Definition mirrors (cbs : callbacks) (st : state) : Prop :=
  mirrored (on_tool_call cbs) (tool_call_args (calls st))
    (tool_calls (response st))
  ∧ mirrored (on_tool_result cbs) (tool_result_args (calls st))
      (tool_results (response st)).

(** A non-empty text. *)
Definition text_delta (v : pyval) : Prop := ∃ d, v = PyStr d ∧ d ≠ "".

(** An entry of [tool_calls] as the service builds it. *)
Definition call_entry (v : pyval) : Prop :=
  ∃ tool_name a,
    v = PyDict [("tool_name", tool_name); ("args", PyStr a)]
    ∧ strip a ≠ "" ∧ strip a ≠ "{}".



(** A statement that keeps the invariant [I], whether it returns or raises. *)
Definition keeps {A} (I : state → Prop) (m : M A) : Prop :=
  ∀ st, I st → I (m st).2.


(** Sample data for the session and for events of mixed shape. *)

Definition servers_ok : ToolServers :=
  {| context_aenter := λ _, None; context_aexit := λ _ _, Returns PyNone |}.

(** A tool server whose context manager asks to suppress exceptions. *)
Definition servers_suppressing : ToolServers :=
  {| context_aenter := λ _, None;
     context_aexit := λ _ _, Returns (PyBool true) |}.

Definition new_session : session := Session None 0 [].

Definition tool_call_with_args (args : pyval) : pyval :=
  PyObj "FunctionToolCallEvent"
    [("part", PyObj "ToolCallPart"
                [("tool_name", PyStr "add"); ("args", args)])].

Definition call_and_result_event : pyval :=
  PyObj "Event"
    [("part", PyObj "ToolCallPart"
                [("tool_name", PyStr "add"); ("args", PyStr add_args)]);
     ("result",
      PyObj "ToolReturnPart"
        [("content",
          PyObj "CallToolResult"
            [("content", PyList [PyObj "TextContent" [("text", PyStr "4")]])])])].

(** ** Strings *)

Lemma append_cons (ch : ascii) (a b : string) :
  String ch a +:+ b = String ch (a +:+ b).
Proof. reflexivity. Qed.

Lemma append_assoc (a b c : string) : (a +:+ b) +:+ c = a +:+ b +:+ c.
Proof.
  induction a as [|ch a IH]; [done|]. by rewrite !append_cons, IH.
Qed.

Lemma append_empty_r (a : string) : a +:+ "" = a.
Proof. induction a as [|ch a IH]; [done|]. by rewrite append_cons, IH. Qed.

Lemma length_append (a b : string) :
  String.length (a +:+ b) = String.length a + String.length b.
Proof.
  induction a as [|ch a IH]; [done|]. rewrite append_cons. simpl. by rewrite IH.
Qed.

Lemma eqb_empty_false (s : string) : s ≠ "" → String.eqb s "" = false.
Proof. intros Hs. by apply String.eqb_neq. Qed.

(** ** The statement monad *)

Lemma bind_run {A B} (m : M A) (k : A → M B) (st : state) :
  (m ≫= k) st
  = match m st with
    | (Returns a, st') => k a st'
    | (Raises e, st') => (Raises e, st')
    end.
Proof. reflexivity. Qed.

Lemma for_each_app {A S} (body : A → S → M S) (xs ys : list A) (acc : S)
    (st : state) :
  for_each body (xs ++ ys) acc st
  = match for_each body xs acc st with
    | (Returns acc', st') => for_each body ys acc' st'
    | (Raises e, st') => (Raises e, st')
    end.
Proof.
  revert acc st. induction xs as [|x xs IH]; intros acc st; simpl.
  - reflexivity.
  - rewrite !bind_run. destruct (body x acc st) as [[acc'|e] st']; auto.
Qed.

#[export] Instance lists_extended_preorder : PreOrder lists_extended.
Proof.
  split.
  - intros r. split; reflexivity.
  - intros r1 r2 r3 [? ?] [? ?]. split; etrans; eauto.
Qed.

#[export] Instance extends_preorder : PreOrder extends.
Proof.
  split.
  - intros st. split; reflexivity.
  - intros st1 st2 st3 [? ?] [? ?]. split; etrans; eauto.
Qed.

Create HintDb appends.

Lemma appends_mret {A} (a : A) : appends (mret a).
Proof. intros st. reflexivity. Qed.

Lemma appends_lift {A} (o : outcome A) : appends (lift o).
Proof. intros st. reflexivity. Qed.

Lemma appends_bind {A B} (m : M A) (k : A → M B) :
  appends m → (∀ a, appends (k a)) → appends (m ≫= k).
Proof.
  intros Hm Hk st. rewrite bind_run. specialize (Hm st).
  destruct (m st) as [[a|e] st']; simpl in *; [|done].
  etrans; [exact Hm | apply Hk].
Qed.

Lemma appends_set_assistant_content (s : string) :
  appends (set_assistant_content s).
Proof. intros st. repeat split; simpl; reflexivity. Qed.

Lemma appends_append_tool_call (v : pyval) : appends (append_tool_call v).
Proof.
  intros st. repeat split; simpl; try reflexivity. by apply prefix_app_r.
Qed.

Lemma appends_append_tool_result (v : pyval) : appends (append_tool_result v).
Proof.
  intros st. repeat split; simpl; try reflexivity. by apply prefix_app_r.
Qed.

Lemma appends_invoke (cb : option callback) (entry : pyval → call) (v : pyval) :
  appends (invoke cb entry v).
Proof.
  intros st. unfold invoke. destruct cb as [f|]; [|reflexivity].
  destruct (f (calls st) v); repeat split; simpl; try reflexivity;
    by apply prefix_app_r.
Qed.

Lemma appends_for_each {A S} (body : A → S → M S) (xs : list A) (acc : S) :
  (∀ x a, appends (body x a)) → appends (for_each body xs acc).
Proof.
  intros Hbody. revert acc. induction xs as [|x xs IH]; intros acc; simpl.
  - apply appends_mret.
  - apply appends_bind; auto.
Qed.

Lemma appends_async_for {A S} (s : script A) (body : A → S → M S) (acc : S) :
  (∀ x a, appends (body x a)) → appends (async_for s body acc).
Proof.
  intros Hbody. apply appends_bind; [by apply appends_for_each|].
  intros a. destruct (stop s); [apply appends_lift | apply appends_mret].
Qed.

#[export] Hint Resolve appends_mret appends_lift appends_set_assistant_content
  appends_append_tool_call appends_append_tool_result appends_invoke : appends.

Section Properties.
Context `{Framework}.

Lemma appends_model_event cb event collected :
  appends (model_event cb event collected).
Proof.
  unfold model_event. destruct (content_delta event) as [delta|];
    [destruct (truthy delta)|]; auto with appends.
  apply appends_bind; [auto with appends|]. intros collected'.
  apply appends_bind; auto with appends.
Qed.

Lemma appends_tool_event on_call on_result event :
  appends (tool_event on_call on_result event ()).
Proof.
  unfold tool_event.
  destruct (tool_call_part event) as [part|].
  - apply appends_bind; [auto with appends|]. intros args.
    destruct (truthy args); [|auto with appends].
    apply appends_bind; [auto with appends|]. intros stripped.
    destruct (negb _); [|auto with appends].
    apply appends_bind; [auto with appends|]. intros tool_name.
    apply appends_bind; auto with appends.
  - destruct (tool_result_part event) as [result|]; [|auto with appends].
    do 4 (apply appends_bind; [auto with appends|]; intros ?).
    apply appends_bind; auto with appends.
Qed.

Lemma appends_with_stream n block : appends block → appends (with_stream n block).
Proof.
  intros Hblock. apply appends_bind; [done|]. intros _.
  destruct (stream_exit n); [apply appends_lift | apply appends_mret].
Qed.

Lemma appends_process_node cbs n : appends (process_node cbs n ()).
Proof.
  unfold process_node, _handle_model_request, _handle_tool_call.
  destruct (is_model_request_node n); [|destruct (is_call_tools_node n)];
    auto with appends; apply appends_with_stream.
  - apply appends_bind; [|auto with appends].
    apply appends_async_for. intros; apply appends_model_event.
  - apply appends_async_for. intros event []. apply appends_tool_event.
Qed.

Lemma appends_process_agent_run run cbs : appends (_process_agent_run run cbs).
Proof.
  apply appends_async_for. intros n []. apply appends_process_node.
Qed.

(** *** The prompt *)

Lemma try_body_prepared self user_input history cbs prompt st :
  _prepare_input_with_history user_input history = Returns prompt →
  try_body self user_input history cbs st
  = _process_agent_run (Agent_iter (agent self) prompt) cbs
      (State (response st) (calls st ++ [AgentIter prompt])).
Proof. intros Hp. unfold try_body. rewrite bind_run. unfold lift. by rewrite Hp. Qed.

Lemma try_body_not_prepared self user_input history cbs e st :
  _prepare_input_with_history user_input history = Raises e →
  try_body self user_input history cbs st = (Raises e, st).
Proof. intros Hp. unfold try_body. rewrite bind_run. unfold lift. by rewrite Hp. Qed.

Lemma process_input_calls_2 self user_input history cbs :
  (process_input self user_input history cbs).2
  = calls (try_body self user_input history cbs (State fresh_response [])).2.
Proof.
  unfold process_input.
  destruct (try_body _ _ _ _ _) as [[[]|e] st]; [done|].
  by destruct (is_Exception e).
Qed.

Lemma process_input_passes_prompt self user_input history cbs prompt :
  _prepare_input_with_history user_input history = Returns prompt →
  ∃ rest, (process_input self user_input history cbs).2 = AgentIter prompt :: rest.
Proof.
  intros Hp. rewrite process_input_calls_2, (try_body_prepared _ _ _ _ _ _ Hp).
  destruct (appends_process_agent_run (Agent_iter (agent self) prompt) cbs
              (State fresh_response ([] ++ [AgentIter prompt]))) as [_ [rest Hrest]].
  exists rest. exact Hrest.
Qed.

Lemma prepare_without_history user_input history :
  truthy history = false →
  _prepare_input_with_history user_input history = Returns user_input.
Proof. intros Hh. unfold _prepare_input_with_history. by rewrite Hh. Qed.

(** C5 (as amended).  With no history, and with the empty history
    sequence, the prompt is [user_input] verbatim; with a non-empty history
    sequence that [json.dumps] serializes to [dumped], the prompt is the line
    "Previous conversation:", [dumped], a blank line, "Current query: " and
    [user_input], which never equals [user_input] alone; in each case that
    prompt is what [process_input] passes to the agent's [iter]. *)
Theorem effective_prompt self (user_input : string) (turn : pyval)
    (turns : list pyval) (dumped : string) cbs :
  json_dumps (PyList (turn :: turns)) = Returns dumped →
  let prompt :=
    "Previous conversation:" +:+ newline +:+ dumped +:+ newline +:+ newline
      +:+ "Current query: " +:+ user_input in
  _prepare_input_with_history user_input PyNone = Returns user_input
  ∧ (∃ rest, (process_input self user_input PyNone cbs).2
             = AgentIter user_input :: rest)
  ∧ _prepare_input_with_history user_input (PyList []) = Returns user_input
  ∧ _prepare_input_with_history user_input (PyList (turn :: turns))
    = Returns prompt
  ∧ (∃ rest, (process_input self user_input (PyList (turn :: turns)) cbs).2
             = AgentIter prompt :: rest)
  ∧ prompt ≠ user_input.
Proof.
  intros Hdumped prompt.
  assert (_prepare_input_with_history user_input (PyList (turn :: turns))
          = Returns prompt) as Hprompt.
  { unfold _prepare_input_with_history. simpl truthy. cbv iota beta.
    simpl negb. by rewrite Hdumped. }
  split_and!.
  - by apply prepare_without_history.
  - by apply process_input_passes_prompt, prepare_without_history.
  - by apply prepare_without_history.
  - exact Hprompt.
  - by apply process_input_passes_prompt.
  - intros Heq. apply (f_equal String.length) in Heq. subst prompt.
    rewrite !length_append in Heq. simpl in Heq. lia.
Qed.

(** C10.  An empty history sequence is treated as no history: in both cases
    the prompt is [user_input] verbatim, [process_input] passes it to the
    agent's [iter], and the two calls behave alike. *)
Theorem empty_history_is_no_history self (user_input : string) cbs :
  _prepare_input_with_history user_input (PyList [])
  = _prepare_input_with_history user_input PyNone
  ∧ _prepare_input_with_history user_input (PyList []) = Returns user_input
  ∧ process_input self user_input (PyList []) cbs
    = process_input self user_input PyNone cbs
  ∧ ∃ rest, (process_input self user_input (PyList []) cbs).2
            = AgentIter user_input :: rest.
Proof.
  split_and!; try reflexivity.
  by apply process_input_passes_prompt, prepare_without_history.
Qed.

(** *** Construction *)

(** C8 (as amended).  When [BASE_MODEL] is unset or set to the empty string,
    [__init__] raises [ValueError] and has built neither a tool-server object
    nor an agent; otherwise it builds the tool-server object for
    [sys.executable mcp_server.py], passes the model name, that server and
    the system prompt to the agent constructor, and returns the service
    exactly when that constructor returns. *)
Theorem init_requires_base_model (environ : gmap string string)
    (system_prompt : string) :
  let server := {| command := sys_executable; args := ["mcp_server.py"] |} in
  let missing :=
    (Raises (ValueError "BASE_MODEL environment variable is required"),
     @nil call) in
  match environ !! "BASE_MODEL" with
  | None => __init__ environ system_prompt = missing
  | Some model_name =>
      if decide (model_name = "") then __init__ environ system_prompt = missing
      else
        __init__ environ system_prompt
        = (match Agent_new model_name [server] system_prompt with
           | Returns a => Returns {| agent := a |}
           | Raises e => Raises e
           end,
           [NewMCPServerStdio server;
            NewAgent model_name [server] system_prompt])
  end.
Proof.
  intros server missing. unfold __init__.
  destruct (environ !! "BASE_MODEL") as [model_name|] eqn:Henv; simpl.
  - destruct (decide (model_name = "")) as [->|Hne]; [done|].
    rewrite (eqb_empty_false _ Hne). simpl.
    by destruct (Agent_new _ _ _).
  - done.
Qed.

(** *** Nodes that are neither model requests nor tool calls *)

(** C9.  A node that neither predicate recognizes is skipped: the response
    record and the calls made are what they were. *)
Theorem other_node_skipped cbs (n : node) (st : state) :
  is_model_request_node n = false →
  is_call_tools_node n = false →
  process_node cbs n () st = (Returns (), st).
Proof. intros Hm Ht. unfold process_node. by rewrite Hm, Ht. Qed.

(** *** Model-request nodes *)

Lemma async_for_returns {A S} (s : script A) (body : A → S → M S) acc st a st' :
  async_for s body acc st = (Returns a, st') →
  for_each body (items s) acc st = (Returns a, st') ∧ stop s = None.
Proof.
  unfold async_for. rewrite bind_run.
  destruct (for_each body (items s) acc st) as [[a'|e] st1]; [|done].
  destruct (stop s); [done|]. by intros [= -> ->].
Qed.

Lemma async_for_raises {A S} (s : script A) (body : A → S → M S) acc st e st' :
  async_for s body acc st = (Raises e, st') →
  for_each body (items s) acc st = (Raises e, st')
  ∨ (∃ a, for_each body (items s) acc st = (Returns a, st') ∧ stop s = Some e).
Proof.
  unfold async_for. rewrite bind_run.
  destruct (for_each body (items s) acc st) as [[a'|e'] st1]; [|by left].
  destruct (stop s) as [e'|]; [|done]. intros [= -> ->]. right. by exists a'.
Qed.

(** While the events of a model-request node are read, the response record
    is not touched, and what has been collected is the text read so far. *)
Lemma model_events_keep_response cb events collected st :
  response (for_each (model_event cb) events collected st).2 = response st.
Proof.
  revert collected st. induction events as [|event events IH];
    intros collected st; simpl; [done|].
  rewrite bind_run.
  destruct (model_event cb event collected st) as [[c|e] st1] eqn:Hev.
  - rewrite IH. revert Hev. unfold model_event.
    destruct (content_delta event) as [delta|]; [destruct (truthy delta)|];
      try by intros [= _ <-].
    rewrite bind_run. unfold lift.
    destruct (str_add collected delta) as [c'|e]; [|done].
    rewrite bind_run. unfold invoke.
    destruct cb as [f|]; [destruct (f (calls st) delta)|];
      by intros [= _ <-].
  - revert Hev. unfold model_event.
    destruct (content_delta event) as [delta|]; [destruct (truthy delta)|];
      try done.
    rewrite bind_run. unfold lift.
    destruct (str_add collected delta) as [c'|e']; [|by intros [= _ <-]].
    rewrite bind_run. unfold invoke.
    destruct cb as [f|]; [destruct (f (calls st) delta)|];
      by intros [= _ <-].
Qed.

Lemma model_events_collect cb events collected st collected' st' :
  for_each (model_event cb) events collected st = (Returns collected', st') →
  collected' = collected +:+ concat_str (omap delta_text events).
Proof.
  revert collected st. induction events as [|event events IH];
    intros collected st; simpl.
  - intros [= <- _]. by rewrite append_empty_r.
  - rewrite bind_run.
    destruct (model_event cb event collected st) as [[c|e] st1] eqn:Hev; [|done].
    intros Hrest. apply IH in Hrest as ->. revert Hev.
    unfold model_event, delta_text.
    destruct (content_delta event) as [delta|]; [|by intros [= <- _]].
    destruct (truthy delta) eqn:Htruthy.
    + rewrite bind_run. unfold lift, str_add.
      destruct delta as [| | |d| | |]; try done.
      rewrite bind_run.
      destruct (invoke cb OnAssistantMessage (PyStr d) st) as [[[]|e] st2];
        [|done].
      intros [= <- _]. simpl. by rewrite append_assoc.
    + intros [= <- _]. destruct delta as [| | |d| | |]; try done.
      simpl in Htruthy. apply negb_false_iff, String.eqb_eq in Htruthy as ->.
      done.
Qed.

(** [async with]: the block, then the exit of the stream when the block
    has come to its end. *)
Lemma with_stream_run n block st :
  with_stream n block st
  = match block st with
    | (Returns _, st1) =>
        (match stream_exit n with None => Returns () | Some e => Raises e end,
         st1)
    | (Raises e, st1) => (Raises e, st1)
    end.
Proof.
  unfold with_stream. rewrite bind_run.
  destruct (block st) as [[[]|e] st1]; [|done]. by destruct (stream_exit n).
Qed.

Lemma with_stream_returns n block st st' :
  with_stream n block st = (Returns (), st') →
  block st = (Returns (), st') ∧ stream_exit n = None.
Proof.
  rewrite with_stream_run. destruct (block st) as [[[]|e] st1]; [|done].
  destruct (stream_exit n); [done|]. by intros [= ->].
Qed.

(** An exception raised in the block of a model-request node finds the
    response record as it was before the node. *)
Lemma model_request_block_raises n cb st e st' :
  model_request_block n cb st = (Raises e, st') →
  response st' = response st.
Proof.
  unfold model_request_block. rewrite bind_run.
  destruct (async_for _ _ _ _) as [[c|e'] st1] eqn:Hloop; [done|].
  intros [= _ <-].
  pose proof (model_events_keep_response cb (items (stream n)) "" st) as Hkeep.
  apply async_for_raises in Hloop as [Hloop|[c [Hloop _]]];
    by rewrite Hloop in Hkeep.
Qed.

(** A block that comes to its end has stored the text of the node. *)
Lemma model_request_block_returns n cb st st' :
  model_request_block n cb st = (Returns (), st') →
  response st'
  = {| assistant_content := node_text n;
       tool_calls := tool_calls (response st);
       tool_results := tool_results (response st);
       error := error (response st) |}.
Proof.
  unfold model_request_block. rewrite bind_run.
  destruct (async_for _ _ _ _) as [[c|e'] st1] eqn:Hloop; [|done].
  intros [= <-]. apply async_for_returns in Hloop as [Hloop _].
  pose proof (model_events_keep_response cb (items (stream n)) "" st) as Hkeep.
  rewrite Hloop in Hkeep. simpl in Hkeep. rewrite Hkeep.
  by apply model_events_collect in Hloop as ->.
Qed.

Lemma handle_model_request_returns n cb st st' :
  _handle_model_request n cb st = (Returns (), st') →
  response st'
  = {| assistant_content := node_text n;
       tool_calls := tool_calls (response st);
       tool_results := tool_results (response st);
       error := error (response st) |}.
Proof.
  unfold _handle_model_request.
  intros [Hblock _]%with_stream_returns.
  by apply model_request_block_returns in Hblock.
Qed.

Lemma truthy_text (d : string) : d ≠ "" → truthy (PyStr d) = true.
Proof. intros Hd. unfold truthy. by rewrite (eqb_empty_false _ Hd). Qed.

Lemma model_event_text cb event (d : string) collected st :
  content_delta event = Some (PyStr d) →
  model_event cb event collected st
  = if decide (d = "") then (Returns collected, st)
    else match cb with
         | None => (Returns (collected +:+ d), st)
         | Some f =>
             (match f (calls st) (PyStr d) with
              | None => Returns (collected +:+ d)
              | Some e => Raises e
              end,
              State (response st) (calls st ++ [OnAssistantMessage (PyStr d)]))
         end.
Proof.
  intros Hdelta. unfold model_event. rewrite Hdelta.
  destruct (decide (d = "")) as [->|Hd]; [done|].
  rewrite (truthy_text _ Hd), bind_run. unfold lift, str_add. rewrite bind_run. unfold invoke.
  destruct cb as [f|]; [|done]. by destruct (f (calls st) (PyStr d)).
Qed.

Lemma model_event_other cb event collected st :
  content_delta event = None →
  model_event cb event collected st = (Returns collected, st).
Proof. intros Hdelta. unfold model_event. by rewrite Hdelta. Qed.

Lemma model_events_run cb events (ds : list string) collected st :
  omap content_delta events = PyStr <$> ds →
  (∀ f lg d, cb = Some f → f lg (PyStr d) = None) →
  for_each (model_event cb) events collected st
  = (Returns (collected +:+ concat_str ds),
     State (response st) (calls st ++ messages cb ds)).
Proof.
  intros Hds Hcb. revert ds collected st Hds.
  induction events as [|event events IH]; intros ds collected st Hds.
  - destruct ds; [|done]. simpl. rewrite append_empty_r.
    unfold messages. destruct cb; simpl; rewrite app_nil_r; by destruct st.
  - simpl for_each. rewrite bind_run.
    destruct (content_delta event) as [delta|] eqn:Hdelta.
    + assert (∃ d ds', ds = d :: ds' ∧ delta = PyStr d
                       ∧ omap content_delta events = PyStr <$> ds')
        as (d & ds' & -> & -> & Hds').
      { simpl in Hds. rewrite Hdelta in Hds. destruct ds as [|d ds']; [done|].
        injection Hds as -> Hds. eauto. }
      rewrite (model_event_text _ _ _ _ _ Hdelta).
      destruct (decide (d = "")) as [->|Hd].
      * rewrite (IH ds' collected st Hds'). by f_equal.
      * destruct cb as [f|].
        -- rewrite (Hcb f (calls st) d eq_refl), (IH ds' _ _ Hds'). simpl.
           rewrite append_assoc. do 2 f_equal. unfold messages.
           rewrite filter_cons_True by done. simpl. by rewrite <- app_assoc.
        -- rewrite (IH ds' _ _ Hds'). simpl. by rewrite append_assoc.
    + rewrite (model_event_other _ _ _ _ Hdelta). apply IH.
      simpl in Hds. by rewrite Hdelta in Hds.
Qed.

(** C2.  When the events of a model-request node expose the text deltas
    [ds] and its stream is exhausted, [_handle_model_request] ends with
    [assistant_content] equal to their concatenation, and it has called
    [on_assistant_message], when supplied (and returning), once for each
    non-empty delta, with that delta, in order; nothing else has changed.
    It returns, unless leaving the stream raises: the text is stored and
    the callback has been called by then. *)
Theorem model_request_accumulates (n : node) (cb : option callback)
    (ds : list string) (st : state) :
  omap content_delta (items (stream n)) = PyStr <$> ds →
  stop (stream n) = None →
  (∀ f lg d, cb = Some f → f lg (PyStr d) = None) →
  _handle_model_request n cb st
  = (match stream_exit n with None => Returns () | Some e => Raises e end,
     State {| assistant_content := concat_str ds;
              tool_calls := tool_calls (response st);
              tool_results := tool_results (response st);
              error := error (response st) |}
           (calls st ++ messages cb ds)).
Proof.
  intros Hds Hstop Hcb.
  unfold _handle_model_request. rewrite with_stream_run.
  unfold model_request_block, async_for.
  rewrite !bind_run, (model_events_run cb _ ds "" st Hds Hcb), Hstop.
  reflexivity.
Qed.

(** *** Runs with several model-request nodes *)

Lemma tool_event_keeps_text on_call on_result event st :
  assistant_content (response (tool_event on_call on_result event () st).2)
  = assistant_content (response st)
  ∧ error (response (tool_event on_call on_result event () st).2)
    = error (response st).
Proof.
  unfold tool_event.
  destruct (tool_call_part event) as [part|].
  - rewrite bind_run. unfold lift.
    destruct (getattr part "args") as [args|]; [|done].
    destruct (truthy args); [|done].
    rewrite bind_run. destruct (call_strip args) as [stripped|]; [|done].
    destruct (negb _); [|done].
    rewrite bind_run. destruct (getattr part "tool_name") as [name|]; [|done].
    rewrite bind_run. simpl. unfold invoke.
    destruct on_call as [f|]; [destruct (f _ _)|]; done.
  - destruct (tool_result_part event) as [result|]; [|done].
    rewrite bind_run. unfold lift.
    destruct (getattr result "content") as [payload|]; [|done].
    rewrite bind_run. destruct (getattr payload "content") as [segments|]; [|done].
    rewrite bind_run. destruct (first_item segments) as [segment|]; [|done].
    rewrite bind_run. destruct (getattr segment "text") as [text|]; [|done].
    rewrite bind_run. simpl. unfold invoke.
    destruct on_result as [f|]; [destruct (f _ _)|]; done.
Qed.

Lemma tool_events_keep_text on_call on_result events st :
  assistant_content
    (response (for_each (tool_event on_call on_result) events () st).2)
  = assistant_content (response st)
  ∧ error (response (for_each (tool_event on_call on_result) events () st).2)
    = error (response st).
Proof.
  revert st. induction events as [|event events IH]; intros st; simpl; [done|].
  rewrite bind_run.
  pose proof (tool_event_keeps_text on_call on_result event st) as [Ht He].
  destruct (tool_event on_call on_result event () st) as [[[]|e] st1];
    simpl in *; [|done].
  destruct (IH st1) as [-> ->]. done.
Qed.

Lemma handle_tool_call_keeps_text n on_call on_result st :
  assistant_content (response (_handle_tool_call n on_call on_result st).2)
  = assistant_content (response st)
  ∧ error (response (_handle_tool_call n on_call on_result st).2)
    = error (response st).
Proof.
  unfold _handle_tool_call. rewrite with_stream_run.
  unfold tool_call_block, async_for. rewrite bind_run.
  pose proof (tool_events_keep_text on_call on_result (items (stream n)) st)
    as Hkeep.
  destruct (for_each _ _ _ _) as [[[]|e] st1]; [|done].
  unfold raise, lift.
  destruct (stop (stream n)); [done|]. by destruct (stream_exit n).
Qed.

Lemma tool_call_block_keeps_text n on_call on_result st :
  assistant_content (response (tool_call_block n on_call on_result st).2)
  = assistant_content (response st)
  ∧ error (response (tool_call_block n on_call on_result st).2)
    = error (response st).
Proof.
  unfold tool_call_block, async_for. rewrite bind_run.
  pose proof (tool_events_keep_text on_call on_result (items (stream n)) st)
    as Hkeep.
  destruct (for_each _ _ _ _) as [[[]|e] st1]; [|done].
  by destruct (stop (stream n)).
Qed.

(** The processing of a node: its block, then the exit of its stream. *)
Lemma process_node_block cbs n st :
  process_node cbs n () st
  = match node_block cbs n st with
    | (Returns _, st1) =>
        (match node_exit n with None => Returns () | Some e => Raises e end,
         st1)
    | (Raises e, st1) => (Raises e, st1)
    end.
Proof.
  unfold process_node, node_block, node_exit, _handle_model_request,
    _handle_tool_call.
  destruct (is_model_request_node n); [apply with_stream_run|].
  destruct (is_call_tools_node n); [apply with_stream_run|]. done.
Qed.

(** A node in whose block an exception is raised leaves [assistant_content]
    as it was. *)
Lemma node_block_raises cbs n st e st' :
  node_block cbs n st = (Raises e, st') →
  assistant_content (response st') = assistant_content (response st)
  ∧ error (response st') = error (response st).
Proof.
  unfold node_block. destruct (is_model_request_node n).
  - by intros ->%model_request_block_raises.
  - destruct (is_call_tools_node n); [|done]. intros Hrun.
    pose proof (tool_call_block_keeps_text n (on_tool_call cbs)
                  (on_tool_result cbs) st) as Hkeep.
    by rewrite Hrun in Hkeep.
Qed.

(** A node whose block comes to its end has set [assistant_content] when
    it is a model-request node, and left it otherwise. *)
Lemma node_block_returns cbs n st st' :
  node_block cbs n st = (Returns (), st') →
  assistant_content (response st')
  = (if is_model_request_node n then node_text n
     else assistant_content (response st))
  ∧ error (response st') = error (response st).
Proof.
  unfold node_block. destruct (is_model_request_node n).
  - by intros ->%model_request_block_returns.
  - destruct (is_call_tools_node n); [|by intros [= <-]]. intros Hrun.
    pose proof (tool_call_block_keeps_text n (on_tool_call cbs)
                  (on_tool_result cbs) st) as Hkeep.
    by rewrite Hrun in Hkeep.
Qed.

(** A node that completes sets [assistant_content] when it is a
    model-request node, and leaves it otherwise. *)
Lemma process_node_returns cbs n st st' :
  process_node cbs n () st = (Returns (), st') →
  assistant_content (response st')
  = (if is_model_request_node n then node_text n
     else assistant_content (response st))
  ∧ error (response st') = error (response st).
Proof.
  rewrite process_node_block.
  destruct (node_block cbs n st) as [[[]|e] st1] eqn:Hblock; [|done].
  destruct (node_exit n); [done|]. intros [= <-].
  by apply (node_block_returns cbs).
Qed.

(** After the nodes of a run were processed, [assistant_content] is the
    text of the last model-request node among them. *)
Lemma completed_nodes_text cbs nodes st st' :
  for_each (process_node cbs) nodes () st = (Returns (), st') →
  assistant_content (response st')
  = assistant_text (assistant_content (response st)) nodes.
Proof.
  revert st. induction nodes as [|m nodes IH]; intros st; simpl.
  - by intros [= <-].
  - rewrite bind_run.
    destruct (process_node cbs m () st) as [[[]|e] st1] eqn:Hnode; [|done].
    intros ->%IH. by apply process_node_returns in Hnode as [-> _].
Qed.

Lemma assistant_text_others current nodes :
  Forall (λ m, is_model_request_node m = false) nodes →
  assistant_text current nodes = current.
Proof.
  intros Hnodes. revert current.
  induction Hnodes as [|m nodes Hm _ IH]; intros current; simpl; [done|].
  by rewrite Hm.
Qed.

Lemma assistant_text_last current before n after :
  is_model_request_node n = true →
  Forall (λ m, is_model_request_node m = false) after →
  assistant_text current (before ++ n :: after) = node_text n.
Proof.
  intros Hn Hafter. unfold assistant_text. rewrite foldl_app. simpl.
  rewrite Hn. by apply assistant_text_others.
Qed.

(** *** Tool-call nodes *)

Lemma invoke_notified cb entry arg r st :
  invoke cb entry arg (State r (calls st)) = notified cb entry arg r st.
Proof.
  unfold invoke, notified. destruct cb as [f|]; [|done]. simpl.
  by destruct (f (calls st) arg).
Qed.

Lemma getattr_some v name a :
  getattr_opt v name = Some a → getattr v name = Returns a.
Proof. intros Ha. unfold getattr. by rewrite Ha. Qed.

Lemma hasattr_some v name a : getattr_opt v name = Some a → hasattr v name = true.
Proof. intros Ha. unfold hasattr. rewrite Ha. by apply bool_decide_eq_true. Qed.

Lemma tool_call_part_some event part name :
  getattr_opt event "part" = Some part →
  getattr_opt part "tool_name" = Some name →
  tool_call_part event = Some part.
Proof.
  intros Hpart Hname. unfold tool_call_part. rewrite Hpart. simpl.
  by rewrite (hasattr_some _ _ _ Hname).
Qed.

Lemma tool_result_part_some event result payload :
  getattr_opt event "result" = Some result →
  getattr_opt result "content" = Some payload →
  tool_result_part event = Some result.
Proof.
  intros Hresult Hpayload. unfold tool_result_part. rewrite Hresult. simpl.
  by rewrite (hasattr_some _ _ _ Hpayload).
Qed.

Lemma truthy_blank (a : string) : truthy (PyStr a) = false → strip a = "".
Proof.
  unfold truthy. intros Ha. by apply negb_false_iff, String.eqb_eq in Ha as ->.
Qed.

(** C3 (as amended).  For an event whose [part] has a [tool_name] and the
    argument text [a]: when [a] without its surrounding whitespace is empty
    or "{}" (as it is for [a] empty and for [a] the literal "{}"), nothing is
    appended and [on_tool_call] is not called; otherwise exactly the entry
    [{tool_name, args}] is appended to [tool_calls] and [on_tool_call], when
    supplied, is called once, with that entry. *)
Theorem tool_call_event_recorded (on_call on_result : option callback)
    (event part tool_name : pyval) (a : string) (st : state) :
  getattr_opt event "part" = Some part →
  getattr_opt part "tool_name" = Some tool_name →
  getattr_opt part "args" = Some (PyStr a) →
  let entry := PyDict [("tool_name", tool_name); ("args", PyStr a)] in
  tool_event on_call on_result event () st
  = (if decide (strip a = "" ∨ strip a = "{}") then (Returns (), st)
     else notified on_call OnToolCall entry
            (with_tool_call entry (response st)) st)
  ∧ strip "" = "" ∧ strip "{}" = "{}".
Proof.
  intros Hpart Hname Hargs entry. split; [|done].
  unfold tool_event. rewrite (tool_call_part_some _ _ _ Hpart Hname).
  cbv iota beta. rewrite bind_run. unfold lift.
  rewrite (getattr_some _ _ _ Hargs).
  destruct (truthy (PyStr a)) eqn:Htruthy.
  - rewrite bind_run. simpl call_strip. cbv iota beta.
    destruct (decide (strip a = "" ∨ strip a = "{}")) as [[Hs|Hs]|Hs].
    + by rewrite Hs.
    + by rewrite Hs.
    + assert (negb (String.eqb (strip a) "" || String.eqb (strip a) "{}")
              = true) as ->.
      { apply negb_true_iff, orb_false_iff.
        split; apply String.eqb_neq; naive_solver. }
      rewrite bind_run, (getattr_some _ _ _ Hname).
      rewrite bind_run. unfold append_tool_call. apply invoke_notified.
  - apply truthy_blank in Htruthy.
    destruct (decide _) as [|Hs]; [done|]. naive_solver.
Qed.

(** C4 (as amended).  For an event that is not a tool-call event and whose
    [result.content] holds a list of segments, the first of them with a
    [text]: exactly that text is appended to [tool_results] and
    [on_tool_result], when supplied, is called once, with that text. *)
Theorem tool_result_event_recorded (on_call on_result : option callback)
    (event result payload segment text : pyval) (more : list pyval)
    (st : state) :
  tool_call_part event = None →
  getattr_opt event "result" = Some result →
  getattr_opt result "content" = Some payload →
  getattr_opt payload "content" = Some (PyList (segment :: more)) →
  getattr_opt segment "text" = Some text →
  tool_event on_call on_result event () st
  = notified on_result OnToolResult text
      (with_tool_result text (response st)) st.
Proof.
  intros Hcall Hresult Hpayload Hsegments Htext.
  unfold tool_event.
  rewrite Hcall, (tool_result_part_some _ _ _ Hresult Hpayload).
  cbv iota beta. rewrite bind_run. unfold lift.
  rewrite (getattr_some _ _ _ Hpayload), bind_run.
  rewrite (getattr_some _ _ _ Hsegments), bind_run. simpl first_item.
  cbv iota beta. rewrite bind_run, (getattr_some _ _ _ Htext), bind_run.
  unfold append_tool_result. apply invoke_notified.
Qed.

(** *** The tool lists only grow *)

Lemma notified_response cb entry arg r st :
  response (notified cb entry arg r st).2 = r.
Proof. unfold notified. by destruct cb. Qed.

Lemma tool_event_appends_one on_call on_result event st :
  let r := response st in
  let r' := response (tool_event on_call on_result event () st).2 in
  at_most_one_appended (tool_calls r) (tool_calls r')
  ∧ at_most_one_appended (tool_results r) (tool_results r').
Proof.
  unfold tool_event.
  destruct (tool_call_part event) as [part|].
  - rewrite bind_run. unfold lift.
    destruct (getattr part "args") as [args|]; [|by split; left].
    destruct (truthy args); [|by split; left].
    rewrite bind_run.
    destruct (call_strip args) as [stripped|]; [|by split; left].
    destruct (negb _); [|by split; left].
    rewrite bind_run.
    destruct (getattr part "tool_name") as [name|]; [|by split; left].
    rewrite bind_run. unfold append_tool_call.
    rewrite invoke_notified, notified_response. simpl.
    split; [right; eauto | by left].
  - destruct (tool_result_part event) as [result|]; [|by split; left].
    rewrite bind_run. unfold lift.
    destruct (getattr result "content") as [payload|]; [|by split; left].
    rewrite bind_run.
    destruct (getattr payload "content") as [segments|]; [|by split; left].
    rewrite bind_run.
    destruct (first_item segments) as [segment|]; [|by split; left].
    rewrite bind_run.
    destruct (getattr segment "text") as [text|]; [|by split; left].
    rewrite bind_run. unfold append_tool_result.
    rewrite invoke_notified, notified_response. simpl.
    split; [by left | right; eauto].
Qed.

Lemma handle_model_request_keeps_lists n cb st :
  let r' := response (_handle_model_request n cb st).2 in
  tool_calls r' = tool_calls (response st)
  ∧ tool_results r' = tool_results (response st).
Proof.
  unfold _handle_model_request. rewrite with_stream_run.
  destruct (model_request_block n cb st) as [[[]|e] st'] eqn:Hrun; simpl.
  - by apply model_request_block_returns in Hrun as ->.
  - by apply model_request_block_raises in Hrun as ->.
Qed.

Lemma appends_try_body self user_input history cbs :
  appends (try_body self user_input history cbs).
Proof.
  unfold try_body. apply appends_bind; [auto with appends|]. intros prompt.
  apply appends_bind; [|intros run; apply appends_process_agent_run].
  intros st. repeat split; simpl; try reflexivity. by apply prefix_app_r.
Qed.

(** C7.  Within one call the two tool lists only grow at their end: an event
    of a tool-call node appends at most one entry to each, a model-request
    node leaves both as they are, and after any node, any run and the whole
    [try] body (whether it returned or raised) each list is the list before
    with entries added at the end; recording the error changes neither. *)
Theorem tool_lists_grow self cbs :
  (∀ event st,
     let r := response st in
     let r' := response (tool_event (on_tool_call cbs) (on_tool_result cbs)
                           event () st).2 in
     at_most_one_appended (tool_calls r) (tool_calls r')
     ∧ at_most_one_appended (tool_results r) (tool_results r'))
  ∧ (∀ n st,
       let r' := response (_handle_model_request n (on_assistant_message cbs)
                             st).2 in
       tool_calls r' = tool_calls (response st)
       ∧ tool_results r' = tool_results (response st))
  ∧ (∀ n st,
       lists_extended (response st) (response (process_node cbs n () st).2))
  ∧ (∀ run st,
       lists_extended (response st)
         (response (_process_agent_run run cbs st).2))
  ∧ (∀ user_input history st,
       lists_extended (response st)
         (response (try_body self user_input history cbs st).2))
  ∧ (∀ msg r,
       tool_calls (set_error msg r) = tool_calls r
       ∧ tool_results (set_error msg r) = tool_results r).
Proof.
  split_and!.
  - intros event st. apply tool_event_appends_one.
  - intros n st. apply handle_model_request_keeps_lists.
  - intros n st. apply appends_process_node.
  - intros run st. apply appends_process_agent_run.
  - intros user_input history st. apply appends_try_body.
  - done.
Qed.

(** *** Exceptions *)

Lemma for_each_raises {A S} (body : A → S → M S) xs acc st e st' :
  for_each body xs acc st = (Raises e, st') →
  ∃ before x after acc1 st1,
    xs = before ++ x :: after
    ∧ for_each body before acc st = (Returns acc1, st1)
    ∧ body x acc1 st1 = (Raises e, st').
Proof.
  revert acc st. induction xs as [|x xs IH]; intros acc st; simpl; [done|].
  rewrite bind_run. destruct (body x acc st) as [[acc1|e1] st1] eqn:Hx.
  - intros (before & y & after & acc2 & st2 & -> & Hbefore & Hy)%IH.
    exists (x :: before), y, after, acc2, st2. split_and!; [done| |done].
    simpl. by rewrite bind_run, Hx.
  - intros [= -> ->]. exists [], x, xs, acc, st. by split_and!.
Qed.

(** Every exception of the [try] body is raised in one of the ways of
    [raised]. *)
Lemma try_body_raised self user_input history cbs e st :
  try_body self user_input history cbs (State fresh_response [])
  = (Raises e, st) →
  ∃ completed, raised self user_input history cbs e completed st.
Proof.
  destruct (_prepare_input_with_history user_input history)
    as [prompt|e'] eqn:Hprompt.
  - rewrite (try_body_prepared _ _ _ _ _ _ Hprompt). simpl.
    intros [Hloop|[[] [Hloop Hstop]]]%async_for_raises.
    + apply for_each_raises in Hloop
        as (before & n & after & [] & st1 & Hitems & Hbefore & Hn).
      rewrite process_node_block in Hn.
      destruct (node_block cbs n st1) as [[[]|e1] st2] eqn:Hblock.
      * destruct (node_exit n) as [e1|] eqn:Hexit; [|done].
        injection Hn as -> ->.
        exists (before ++ [n]). by eapply raised_on_leaving_stream.
      * injection Hn as -> ->.
        exists before. by eapply raised_in_event_dispatch.
    + eexists. by eapply raised_by_run_iteration.
  - rewrite (try_body_not_prepared _ _ _ _ _ _ Hprompt).
    intros [= -> <-]. eexists. by apply raised_in_prompt_preparation.
Qed.

Lemma raised_try_body self user_input history cbs e completed st :
  raised self user_input history cbs e completed st →
  try_body self user_input history cbs (State fresh_response [])
  = (Raises e, st)
  ∧ assistant_content (response st) = assistant_text "" completed.
Proof.
  intros [Hprompt|prompt st' Hprompt Hnodes Hstop
          |prompt nodes n rest st1 st' Hprompt Hitems Hnodes Hn
          |prompt nodes n rest st1 st' Hprompt Hitems Hnodes Hn Hexit].
  - by rewrite (try_body_not_prepared _ _ _ _ _ _ Hprompt).
  - rewrite (try_body_prepared _ _ _ _ _ _ Hprompt). simpl.
    unfold _process_agent_run, async_for. rewrite bind_run, Hnodes, Hstop.
    split; [done|]. by apply completed_nodes_text in Hnodes.
  - rewrite (try_body_prepared _ _ _ _ _ _ Hprompt). simpl.
    unfold _process_agent_run, async_for.
    rewrite bind_run, Hitems, for_each_app, Hnodes. simpl.
    rewrite bind_run, process_node_block, Hn. split; [done|].
    apply node_block_raises in Hn as [-> _].
    by apply completed_nodes_text in Hnodes.
  - rewrite (try_body_prepared _ _ _ _ _ _ Hprompt). simpl.
    unfold _process_agent_run, async_for.
    rewrite bind_run, Hitems, for_each_app, Hnodes. simpl.
    rewrite bind_run, process_node_block, Hn, Hexit. split; [done|].
    apply node_block_returns in Hn as [-> _].
    apply completed_nodes_text in Hnodes as ->.
    unfold assistant_text. by rewrite foldl_app.
Qed.

(** C1 (as amended).  An exception derived from [Exception] that is raised
    while the prompt is prepared, by the run's iterator, in the block of a
    node or on leaving the stream of a node does not leave [process_input]:
    the call returns a record whose [error] is [str(e)], whose tool lists
    are those of the moment the exception was raised (so they hold every
    entry appended before it), and whose [assistant_content] is the text of
    the last model-request node whose stream was read to its end before the
    exception (empty when there is none): that includes a node whose stream
    raised only when it was left, and not a node that was still being
    read. *)
Theorem process_input_absorbs_exceptions self (user_input : string)
    (history : pyval) cbs (e : exn) (completed : list node) (st : state) :
  raised self user_input history cbs e completed st →
  is_Exception e = true →
  ∃ r, process_input self user_input history cbs = (Returns r, calls st)
       ∧ error r = Some (exn_str e)
       ∧ tool_calls r = tool_calls (response st)
       ∧ tool_results r = tool_results (response st)
       ∧ assistant_content r = assistant_text "" completed.
Proof.
  intros [Hbody Htext]%raised_try_body He.
  exists (set_error (exn_str e) (response st)).
  unfold process_input. rewrite Hbody, He. by split_and!.
Qed.

(** An exception that leaves [process_input] is not derived from
    [Exception], and it was raised by a collaborator. *)
Lemma process_input_raises_only_base_exceptions self user_input history cbs
    e lg :
  process_input self user_input history cbs = (Raises e, lg) →
  is_Exception e = false.
Proof.
  unfold process_input. destruct (try_body _ _ _ _ _) as [[[]|e'] st]; [done|].
  destruct (is_Exception e') eqn:He; [done|]. by intros [= <- _].
Qed.

(** *** The text of the final record *)

Lemma raised_completed_prefix self user_input history cbs e completed st prompt :
  raised self user_input history cbs e completed st →
  _prepare_input_with_history user_input history = Returns prompt →
  completed `prefix_of` items (Agent_iter (agent self) prompt).
Proof.
  intros [Hfailed|prompt' st' Hprompt' _ _
          |prompt' nodes n rest st1 st' Hprompt' Hitems _ _
          |prompt' nodes n rest st1 st' Hprompt' Hitems _ _ _] Hprompt.
  - by rewrite Hfailed in Hprompt.
  - rewrite Hprompt' in Hprompt. by injection Hprompt as ->.
  - rewrite Hprompt' in Hprompt. injection Hprompt as ->.
    rewrite Hitems. by apply prefix_app_r.
  - rewrite Hprompt' in Hprompt. injection Hprompt as ->.
    rewrite Hitems, (cons_middle n nodes rest), app_assoc.
    by apply prefix_app_r.
Qed.

(** The text of the record while the nodes of a run are processed: that
    of the last model-request node among the nodes read to their end. *)
Lemma nodes_read_text cbs nodes st :
  assistant_content (response (for_each (process_node cbs) nodes () st).2)
  = assistant_text (assistant_content (response st)) (nodes_read cbs nodes st).
Proof.
  revert st. induction nodes as [|m nodes IH]; intros st; [done|].
  simpl for_each. simpl nodes_read. rewrite bind_run, process_node_block.
  destruct (node_block cbs m st) as [[[]|e] st1] eqn:Hblock.
  - apply node_block_returns in Hblock as [Htext _].
    destruct (node_exit m); simpl; [by rewrite Htext|].
    by rewrite IH, Htext.
  - simpl. by apply node_block_raises in Hblock as [-> _].
Qed.

Lemma nodes_read_returns cbs nodes st st' :
  for_each (process_node cbs) nodes () st = (Returns (), st') →
  nodes_read cbs nodes st = nodes.
Proof.
  revert st. induction nodes as [|m nodes IH]; intros st; [done|].
  simpl for_each. simpl nodes_read. rewrite bind_run, process_node_block.
  destruct (node_block cbs m st) as [[[]|e] st1]; [|done].
  destruct (node_exit m); [done|]. by intros ->%IH.
Qed.

Lemma nodes_read_prefix cbs nodes st : nodes_read cbs nodes st `prefix_of` nodes.
Proof.
  revert st. induction nodes as [|m nodes IH]; intros st; [done|].
  simpl. destruct (node_block cbs m st) as [[[]|e] st1];
    [|apply prefix_nil].
  apply prefix_cons. destruct (node_exit m); [apply prefix_nil | apply IH].
Qed.

Lemma assistant_text_last_model current nodes :
  assistant_text current nodes
  = from_option node_text current (last_model_request nodes).
Proof.
  revert current. unfold assistant_text, last_model_request.
  induction nodes as [|m nodes IH]; intros current; [done|].
  simpl foldl. rewrite IH. destruct (is_model_request_node m) eqn:Hm.
  - rewrite filter_cons_True by done. rewrite last_cons.
    by destruct (last _).
  - rewrite filter_cons_False; [done|]. by rewrite Hm.
Qed.

(** The record a call returns holds the text reached when the nodes of the
    run were processed; when it has no [error], they were all processed. *)
Lemma process_input_record_text self user_input history cbs prompt r lg :
  _prepare_input_with_history user_input history = Returns prompt →
  process_input self user_input history cbs = (Returns r, lg) →
  let run := for_each (process_node cbs)
               (items (Agent_iter (agent self) prompt)) ()
               (State fresh_response [AgentIter prompt]) in
  assistant_content r = assistant_content (response run.2)
  ∧ (error r = None → run.1 = Returns ()).
Proof.
  intros Hprompt. unfold process_input.
  rewrite (try_body_prepared _ _ _ _ _ _ Hprompt). simpl.
  unfold _process_agent_run, async_for. rewrite bind_run.
  destruct (for_each _ _ _ _) as [[[]|e] st1]; simpl.
  - destruct (stop _) as [e|]; simpl.
    + destruct (is_Exception e); [|done]. by intros [= <- _].
    + by intros [= <- _].
  - destruct (is_Exception e); [|done]. by intros [= <- _].
Qed.

(** C6 (as amended).  A model-request node whose stream is read to its end
    sets [assistant_content] to its own text, whatever the record held and
    also when leaving the stream then raises; a node in whose block an
    exception is raised leaves it as it was.  So the record a call returns
    holds the text of the last model-request node among the nodes read to
    their end (the empty text when there is none), and after a call that
    ended without [error] that is the last model-request node of the
    run. *)
Theorem last_model_request_wins self (user_input : string) (history : pyval)
    cbs (prompt : string) (before : list node) (n : node) (after : list node)
    (r : Response) (lg : list call) :
  _prepare_input_with_history user_input history = Returns prompt →
  items (Agent_iter (agent self) prompt) = before ++ n :: after →
  is_model_request_node n = true →
  Forall (λ m, is_model_request_node m = false) after →
  process_input self user_input history cbs = (Returns r, lg) →
  let read := nodes_read cbs (before ++ n :: after)
                (State fresh_response [AgentIter prompt]) in
  assistant_content r = from_option node_text "" (last_model_request read)
  ∧ read `prefix_of` before ++ n :: after
  ∧ (error r = None →
       read = before ++ n :: after ∧ assistant_content r = node_text n)
  ∧ (∀ m st st', is_model_request_node m = true →
       node_block cbs m st = (Returns (), st') →
       (process_node cbs m () st).2 = st'
       ∧ assistant_content (response st') = node_text m)
  ∧ (∀ m st e st', node_block cbs m st = (Raises e, st') →
       process_node cbs m () st = (Raises e, st')
       ∧ assistant_content (response st') = assistant_content (response st)).
Proof.
  intros Hprompt Hitems Hn Hafter Hcall read.
  destruct (process_input_record_text _ _ _ _ _ _ _ Hprompt Hcall)
    as [Htext Hall].
  rewrite Hitems, nodes_read_text in Htext. simpl in Htext. fold read in Htext.
  rewrite Hitems in Hall.
  split_and!.
  - by rewrite Htext, assistant_text_last_model.
  - apply nodes_read_prefix.
  - intros Hr%Hall.
    assert (read = before ++ n :: after) as Hread.
    { destruct (for_each _ _ _ _) as [o st'] eqn:Hrun. simpl in Hr. subst o.
      by eapply nodes_read_returns. }
    split; [done|]. by rewrite Htext, Hread, assistant_text_last.
  - intros m st st' Hm Hblock. rewrite process_node_block, Hblock.
    split; [done|].
    apply node_block_returns in Hblock as [Hblock _]. by rewrite Hm in Hblock.
  - intros m st e st' Hblock. rewrite process_node_block, Hblock.
    split; [done|]. by apply node_block_raises in Hblock as [? _].
Qed.

End Properties.

(** ** The scripted framework at work *)

Example dumps_sample_history :
  dumps_indent2 (PyList sample_history) = Returns sample_dumped.
Proof. reflexivity. Qed.

Example strip_examples :
  strip " {} " = "{}" ∧ strip "  " = "" ∧ strip (newline +:+ "{ }") = "{ }".
Proof. by split_and!. Qed.

Example process_input_run_ok :
  process_input (service run_ok) "2+2" PyNone listening
  = (Returns final_ok, log_ok).
Proof. vm_compute. reflexivity. Qed.

Example process_input_closed_badly :
  process_input (service run_closed_badly) "2+2" PyNone listening
  = (Returns {| assistant_content := "2+2 is 4"; tool_calls := [add_call];
                tool_results := [PyStr "4"]; error := Some "stream closed" |},
     log_ok).
Proof. vm_compute. reflexivity. Qed.

Example process_input_calculator :
  process_input (service run_calculator) "2+2" PyNone no_callbacks
  = (Returns {| assistant_content := "4"; tool_calls := [];
                tool_results := []; error := None |},
     [AgentIter "2+2"]).
Proof. vm_compute. reflexivity. Qed.

Example process_input_without_callbacks :
  process_input (service run_ok) "2+2" PyNone no_callbacks
  = (Returns {| assistant_content := "2+2 is 4"; tool_calls := [add_call];
                tool_results := [PyStr "4"]; error := None |},
     [AgentIter "2+2"]).
Proof. vm_compute. reflexivity. Qed.

Example init_with_base_model :
  @__init__ scripted {[ "BASE_MODEL" := "openai:gpt-4o" ]} default_system_prompt
  = (Returns (service (Script [] None)),
     [NewMCPServerStdio {| command := "/usr/bin/python3";
                           args := ["mcp_server.py"] |};
      NewAgent "openai:gpt-4o"
        [{| command := "/usr/bin/python3"; args := ["mcp_server.py"] |}]
        default_system_prompt]).
Proof. vm_compute. reflexivity. Qed.

(** ** Instances and counterexamples *)

(** C1, two instances.  The stream of the answer fails after the delta
    "2+2": the record keeps the tool call, the tool result and the text of
    the node read before.  The stream of the answer is read to its end and
    raises when it is left: the record holds the text of the answer. *)
Lemma process_input_absorbs_exceptions_witness :
  (∃ r, process_input (service run_cut_short) "2+2" PyNone listening
        = (Returns r,
           [AgentIter "2+2"; OnAssistantMessage (PyStr "Adding.");
            OnToolCall add_call; OnToolResult (PyStr "4");
            OnAssistantMessage (PyStr "2+2")])
        ∧ error r = Some "connection lost"
        ∧ tool_calls r = [add_call]
        ∧ tool_results r = [PyStr "4"]
        ∧ assistant_content r = "Adding.")
  ∧ (∃ r, process_input (service run_closed_badly) "2+2" PyNone listening
          = (Returns r, log_ok)
          ∧ error r = Some "stream closed"
          ∧ tool_calls r = [add_call]
          ∧ tool_results r = [PyStr "4"]
          ∧ assistant_content r = "2+2 is 4").
Proof.
  split.
  - apply (process_input_absorbs_exceptions (H := scripted)
             (service run_cut_short) "2+2" PyNone listening
             (RuntimeError "connection lost") [thinking_node; adding_node]
             (State {| assistant_content := "Adding."; tool_calls := [add_call];
                       tool_results := [PyStr "4"]; error := None |}
                    [AgentIter "2+2"; OnAssistantMessage (PyStr "Adding.");
                     OnToolCall add_call; OnToolResult (PyStr "4");
                     OnAssistantMessage (PyStr "2+2")])); [|reflexivity].
    apply (raised_in_event_dispatch (H := scripted) _ _ _ _ _ "2+2"
             [thinking_node; adding_node] answer_cut_short [end_node]
             (State {| assistant_content := "Adding."; tool_calls := [add_call];
                       tool_results := [PyStr "4"]; error := None |}
                    [AgentIter "2+2"; OnAssistantMessage (PyStr "Adding.");
                     OnToolCall add_call; OnToolResult (PyStr "4")]));
      reflexivity.
  - apply (process_input_absorbs_exceptions (H := scripted)
             (service run_closed_badly) "2+2" PyNone listening
             (RuntimeError "stream closed")
             [thinking_node; adding_node; answer_closed_badly]
             (State final_ok log_ok)); [|reflexivity].
    apply (raised_on_leaving_stream (H := scripted) _ _ _ _ _ "2+2"
             [thinking_node; adding_node] answer_closed_badly [end_node]
             (State {| assistant_content := "Adding."; tool_calls := [add_call];
                       tool_results := [PyStr "4"]; error := None |}
                    [AgentIter "2+2"; OnAssistantMessage (PyStr "Adding.");
                     OnToolCall add_call; OnToolResult (PyStr "4")]));
      reflexivity.
Defined.

(** C1 as stated fails: the delta "Hel" was collected and passed to
    [on_assistant_message] before the stream failed, yet the record returned
    has an empty [assistant_content]; and an exception that is not derived
    from [Exception] leaves [process_input]. *)
Lemma partial_text_is_dropped :
  process_input (service run_interrupted) "hi" PyNone listening
  = (Returns {| assistant_content := ""; tool_calls := []; tool_results := [];
                error := Some "boom" |},
     [AgentIter "hi"; OnAssistantMessage (PyStr "Hel")])
  ∧ process_input (service run_cancelled) "hi" PyNone listening
    = (Raises CancelledError, [AgentIter "hi"]).
Proof. split; vm_compute; reflexivity. Qed.

(** C2, an instance: three deltas, one of them empty. *)
Lemma model_request_accumulates_witness :
  _handle_model_request answer_node (Some quiet) start
  = (Returns (),
     State {| assistant_content := "2+2 is 4"; tool_calls := [];
              tool_results := []; error := None |}
           [OnAssistantMessage (PyStr "2+2");
            OnAssistantMessage (PyStr " is 4")]).
Proof.
  apply (model_request_accumulates answer_node (Some quiet)
           ["2+2"; ""; " is 4"] start); [reflexivity..|].
  by intros f lg d [= <-].
Defined.

(** C3, an instance: a call of [add] with JSON arguments. *)
Lemma tool_call_event_recorded_witness :
  tool_event (Some quiet) None (tool_call_requested "add" add_args) () start
  = (Returns (),
     State {| assistant_content := ""; tool_calls := [add_call];
              tool_results := []; error := None |} [OnToolCall add_call]).
Proof.
  exact (proj1 (tool_call_event_recorded (Some quiet) None
                  (tool_call_requested "add" add_args)
                  (PyObj "ToolCallPart"
                     [("tool_name", PyStr "add"); ("args", PyStr add_args)])
                  (PyStr "add") add_args start eq_refl eq_refl eq_refl)).
Defined.

(** C3 as stated fails: the argument text " " is neither empty nor "{}",
    yet no entry is appended and [on_tool_call] is not called. *)
Lemma blank_args_not_recorded :
  " " ≠ "" ∧ " " ≠ "{}"
  ∧ tool_event (Some quiet) None (tool_call_requested "add" " ") () start
    = (Returns (), start).
Proof. by split_and!. Qed.

(** C4, an instance: a result with two segments. *)
Lemma tool_result_event_recorded_witness :
  tool_event None (Some quiet) (tool_result_received ["4"; "four"]) () start
  = (Returns (),
     State {| assistant_content := ""; tool_calls := [];
              tool_results := [PyStr "4"]; error := None |}
           [OnToolResult (PyStr "4")]).
Proof.
  exact (tool_result_event_recorded None (Some quiet)
           (tool_result_received ["4"; "four"])
           (PyObj "ToolReturnPart"
              [("content",
                PyObj "CallToolResult"
                  [("content",
                    PyList [PyObj "TextContent" [("text", PyStr "4")];
                            PyObj "TextContent" [("text", PyStr "four")]])])])
           (PyObj "CallToolResult"
              [("content",
                PyList [PyObj "TextContent" [("text", PyStr "4")];
                        PyObj "TextContent" [("text", PyStr "four")]])])
           (PyObj "TextContent" [("text", PyStr "4")]) (PyStr "4")
           [PyObj "TextContent" [("text", PyStr "four")]] start
           eq_refl eq_refl eq_refl eq_refl eq_refl).
Defined.

(** C4 as stated fails: an event whose result payload has no segment
    appends nothing and calls nothing; [content[0]] raises, and the call
    ends with that error. *)
Lemma empty_payload_not_recorded :
  tool_result_part (tool_result_received []) = Some
    (PyObj "ToolReturnPart"
       [("content", PyObj "CallToolResult" [("content", PyList [])])])
  ∧ tool_event (Some quiet) (Some quiet) (tool_result_received []) () start
    = (Raises (IndexError "list index out of range"), start)
  ∧ process_input (service run_empty_result) "2+2" PyNone listening
    = (Returns {| assistant_content := ""; tool_calls := [];
                  tool_results := []; error := Some "list index out of range" |},
       [AgentIter "2+2"]).
Proof. split_and!; vm_compute; reflexivity. Qed.

(** C5, an instance: a history of one turn. *)
Lemma effective_prompt_witness :
  @json_dumps scripted (PyList sample_history) = Returns sample_dumped
  ∧ @_prepare_input_with_history scripted "2+2" (PyList sample_history)
    = Returns ("Previous conversation:" +:+ newline +:+ sample_dumped
                 +:+ newline +:+ newline +:+ "Current query: 2+2")
  ∧ ∃ rest, (process_input (service run_ok) "2+2" (PyList sample_history)
               listening).2
            = AgentIter ("Previous conversation:" +:+ newline +:+ sample_dumped
                           +:+ newline +:+ newline +:+ "Current query: 2+2")
              :: rest.
Proof.
  split; [reflexivity|].
  pose proof (effective_prompt (H := scripted) (service run_ok) "2+2"
                (PyDict [("role", PyStr "user"); ("content", PyStr "1+1")]) []
                sample_dumped listening eq_refl)
    as (_ & _ & _ & Hprompt & Hpassed & _).
  split; [exact Hprompt | exact Hpassed].
Defined.

(** C5 as stated fails: for the empty history the prompt is [user_input]
    alone, not the serialized history "[]", a separator and [user_input]. *)
Lemma empty_history_has_no_block :
  @json_dumps scripted (PyList []) = Returns "[]"
  ∧ @_prepare_input_with_history scripted "2+2" (PyList []) = Returns "2+2"
  ∧ ∀ separator : string, "[]" +:+ separator +:+ "2+2" ≠ "2+2".
Proof. split_and!; [reflexivity..|]. intros separator. discriminate. Qed.

(** C6, two instances.  The stream of the last model-request node fails
    while it is read: the nodes read are the two before it, and the record
    holds the text of the first node.  The stream of the last model-request
    node raises when it is left: that node was read, and the record holds
    its text. *)
Lemma last_model_request_wins_witness :
  nodes_read listening (items run_cut_short)
    (State fresh_response [AgentIter "2+2"])
  = [thinking_node; adding_node]
  ∧ assistant_content
      {| assistant_content := "Adding."; tool_calls := [add_call];
         tool_results := [PyStr "4"]; error := Some "connection lost" |}
    = node_text thinking_node
  ∧ nodes_read listening (items run_closed_badly)
      (State fresh_response [AgentIter "2+2"])
    = [thinking_node; adding_node; answer_closed_badly]
  ∧ assistant_content
      {| assistant_content := "2+2 is 4"; tool_calls := [add_call];
         tool_results := [PyStr "4"]; error := Some "stream closed" |}
    = node_text answer_closed_badly.
Proof.
  assert (Forall (λ m, is_model_request_node m = false) [end_node]) as Hafter
    by (by repeat constructor).
  split_and!; [reflexivity| |reflexivity|].
  - exact (proj1 (last_model_request_wins (H := scripted)
                    (service run_cut_short) "2+2" PyNone listening "2+2"
                    [thinking_node; adding_node] answer_cut_short [end_node]
                    {| assistant_content := "Adding."; tool_calls := [add_call];
                       tool_results := [PyStr "4"];
                       error := Some "connection lost" |}
                    [AgentIter "2+2"; OnAssistantMessage (PyStr "Adding.");
                     OnToolCall add_call; OnToolResult (PyStr "4");
                     OnAssistantMessage (PyStr "2+2")]
                    eq_refl eq_refl eq_refl Hafter eq_refl)).
  - exact (proj1 (last_model_request_wins (H := scripted)
                    (service run_closed_badly) "2+2" PyNone listening "2+2"
                    [thinking_node; adding_node] answer_closed_badly [end_node]
                    {| assistant_content := "2+2 is 4"; tool_calls := [add_call];
                       tool_results := [PyStr "4"];
                       error := Some "stream closed" |}
                    log_ok eq_refl eq_refl eq_refl Hafter eq_refl)).
Defined.

(** C6 as stated fails: the last model-request node of the run collects the
    text "2+2" before its stream fails, and the record returned still holds
    the text of the first model-request node. *)
Lemma failed_node_text_not_kept :
  process_input (service run_cut_short) "2+2" PyNone listening
  = (Returns {| assistant_content := "Adding."; tool_calls := [add_call];
                tool_results := [PyStr "4"];
                error := Some "connection lost" |},
     [AgentIter "2+2"; OnAssistantMessage (PyStr "Adding.");
      OnToolCall add_call; OnToolResult (PyStr "4");
      OnAssistantMessage (PyStr "2+2")])
  ∧ filter (λ m, is_model_request_node m = true) (items run_cut_short)
    = [thinking_node; answer_cut_short]
  ∧ node_text thinking_node = "Adding."
  ∧ node_text answer_cut_short = "2+2".
Proof. split_and!; vm_compute; reflexivity. Qed.

(** C8 as stated fails: [BASE_MODEL] is present, with the empty string as
    its value, and construction raises. *)
Lemma empty_base_model_rejected :
  ({[ "BASE_MODEL" := "" ]} : gmap string string) !! "BASE_MODEL" = Some ""
  ∧ @__init__ scripted {[ "BASE_MODEL" := "" ]} default_system_prompt
    = (Raises (ValueError "BASE_MODEL environment variable is required"), []).
Proof. split; vm_compute; reflexivity. Qed.

(** C9, an instance: the end node of a run. *)
Lemma other_node_skipped_witness :
  process_node listening end_node () start = (Returns (), start).
Proof. exact (other_node_skipped listening end_node start eq_refl eq_refl). Defined.

(** ** The scoped session *)

Section SessionProperties.
Context `{ToolServers}.

Lemma latest_only_app (n : nat) (log1 log2 : list session_call) :
  latest_only n (log1 ++ log2)
  ↔ latest_only n log1 ∧ latest_only (n + contexts_made log1) log2.
Proof.
  revert n. induction log1 as [|c log1 IH]; intros n; simpl.
  - rewrite Nat.add_0_r. tauto.
  - destruct c as [|context|context exc]; simpl.
    + rewrite IH. by replace (S n + contexts_made log1)
        with (n + S (contexts_made log1)) by lia.
    + rewrite IH. tauto.
    + rewrite IH. tauto.
Qed.

Lemma contexts_made_app (log1 log2 : list session_call) :
  contexts_made (log1 ++ log2) = contexts_made log1 + contexts_made log2.
Proof.
  induction log1 as [|c log1 IH]; simpl; [done|].
  destruct c; simpl; lia.
Qed.

Lemma session_inv_step (entered : nat) (s : session) (op : session_op) :
  session_inv entered s →
  session_inv (entered + count_enters [op]) (session_step s op).
Proof.
  intros (Hcreated & Hmade & Hctx & Hnone & Hlog).
  destruct op as [|exc]; simpl.
  - replace (entered + 1) with (S entered) by lia.
    unfold __aenter__. rewrite Hcreated.
    assert (session_inv (S entered)
              (Session (Some entered) (S entered)
                 (session_calls s ++ [RunMcpServers; ContextEnter entered])))
      as Hinv.
    { split_and!; simpl; try done.
      - rewrite contexts_made_app, Hmade. simpl. lia.
      - apply latest_only_app. split; [done|]. rewrite Hmade. simpl.
        split; [lia | done]. }
    by destruct (context_aenter entered).
  - rewrite Nat.add_0_r. unfold __aexit__. rewrite Hctx.
    destruct entered as [|k]; [done|].
    assert (session_inv (S k)
              (Session (Some k) (contexts_created s)
                 (session_calls s ++ [ContextExit k exc]))) as Hinv.
    { split_and!; simpl; try done.
      - rewrite contexts_made_app, Hmade. simpl. lia.
      - apply latest_only_app. split; [done|]. rewrite Hmade. simpl.
        split; [lia | done]. }
    by destruct (context_aexit k exc).
Qed.

Lemma count_enters_app (ops1 ops2 : list session_op) :
  count_enters (ops1 ++ ops2) = count_enters ops1 + count_enters ops2.
Proof.
  induction ops1 as [|op ops1 IH]; simpl; [done|]. destruct op; simpl; lia.
Qed.

Lemma session_inv_run (ops : list session_op) (entered : nat) (s : session) :
  session_inv entered s →
  session_inv (entered + count_enters ops) (session_run ops s).
Proof.
  revert entered s. induction ops as [|op ops IH]; intros entered s Hinv.
  - simpl. by rewrite Nat.add_0_r.
  - change (op :: ops) with ([op] ++ ops). rewrite count_enters_app.
    rewrite Nat.add_assoc. apply IH. by apply session_inv_step.
Qed.

Lemma session_inv_new : session_inv 0 new_session.
Proof. by split_and!. Qed.

(** X1.  Whatever sequence of [__aenter__] and [__aexit__] calls a service
    has gone through since its construction, it holds the context of the
    most recent [__aenter__]: [__aexit__] leaves exactly that context, with
    the exception it is given; and as long as [__aenter__] was never called
    nothing has reached the framework and [__aexit__] raises
    [AttributeError]. *)
Theorem aexit_leaves_latest_context (ops : list session_op) (exc : option exn) :
  let s := session_run ops new_session in
  match count_enters ops with
  | 0 =>
      session_calls s = []
      ∧ ∃ e, __aexit__ exc s = (Raises e, s)
             ∧ exn_type e = "AttributeError" ∧ is_Exception e = true
  | S k =>
      _mcp_context s = Some k
      ∧ contexts_created s = S k
      ∧ session_calls (__aexit__ exc s).2
        = session_calls s ++ [ContextExit k exc]
  end.
Proof.
  intros s.
  pose proof (session_inv_run ops 0 new_session session_inv_new)
    as (Hcreated & _ & Hctx & Hnone & _).
  fold s in Hcreated, Hctx, Hnone. simpl in *.
  destruct (count_enters ops) as [|k].
  - split; [by apply Hnone|]. unfold __aexit__. rewrite Hctx.
    eexists. by split_and!.
  - split_and!; [done..|]. unfold __aexit__. rewrite Hctx.
    by destruct (context_aexit k exc).
Qed.

(** X2.  [async with service: block] makes one context, enters it, and when
    entering succeeded leaves that context exactly once, with the exception
    of the block if it raised one.  The exception of the block is never
    suppressed, whatever the context's own [__aexit__] returns: the block's
    value or exception is the outcome, unless leaving the context raises. *)
Theorem async_with_service {A} (block : outcome A) (s : session) :
  let context := contexts_created s in
  let exc := match block with Returns _ => None | Raises e => Some e end in
  async_with block s
  = match context_aenter context with
    | Some e =>
        (Raises e,
         Session (Some context) (S context)
           (session_calls s ++ [RunMcpServers; ContextEnter context]))
    | None =>
        (match context_aexit context exc with
         | Raises e' => Raises e'
         | Returns _ =>
             match block with
             | Returns a => Returns (Some a)
             | Raises e => Raises e
             end
         end,
         Session (Some context) (S context)
           (session_calls s
              ++ [RunMcpServers; ContextEnter context; ContextExit context exc]))
    end.
Proof.
  intros context exc. unfold async_with, __aenter__. fold context.
  destruct (context_aenter context) as [e|]; [done|].
  unfold __aexit__. simpl. subst exc.
  destruct block as [a|e]; destruct (context_aexit context _); simpl;
    by rewrite <- app_assoc.
Qed.

(** X3.  In the calls a service has made to the framework, every context
    entered or left is the one made last: once [__aenter__] has been called
    again, the context of the earlier call is never left. *)
Theorem session_uses_latest_context_only (ops : list session_op) :
  latest_only 0 (session_calls (session_run ops new_session))
  ∧ contexts_made (session_calls (session_run ops new_session))
    = count_enters ops.
Proof.
  pose proof (session_inv_run ops 0 new_session session_inv_new)
    as (_ & Hmade & _ & _ & Hlog).
  by split.
Qed.

End SessionProperties.

Example async_with_suppressing_context :
  @async_with servers_suppressing nat (Raises (RuntimeError "boom")) new_session
  = (Raises (RuntimeError "boom"),
     Session (Some 0) 1
       [RunMcpServers; ContextEnter 0;
        ContextExit 0 (Some (RuntimeError "boom"))]).
Proof. reflexivity. Qed.

Example reentered_session :
  session_calls
    (@session_run servers_ok [Aenter; Aenter; Aexit None; Aexit None]
       new_session)
  = [RunMcpServers; ContextEnter 0; RunMcpServers; ContextEnter 1;
     ContextExit 1 None; ContextExit 1 None].
Proof. reflexivity. Qed.

(** ** What every call keeps *)

Lemma keeps_mret {A} (I : state → Prop) (a : A) : keeps I (mret a).
Proof. by intros st. Qed.

Lemma keeps_lift {A} (I : state → Prop) (o : outcome A) : keeps I (lift o).
Proof. by intros st. Qed.

Lemma keeps_bind {A B} (I : state → Prop) (m : M A) (k : A → M B) :
  keeps I m → (∀ a, keeps I (k a)) → keeps I (m ≫= k).
Proof.
  intros Hm Hk st HI. rewrite bind_run. specialize (Hm st HI).
  destruct (m st) as [[a|e] st']; simpl in *; [by apply Hk | done].
Qed.

Lemma keeps_for_each {A S} (I : state → Prop) (body : A → S → M S)
    (xs : list A) (acc : S) :
  (∀ x a, keeps I (body x a)) → keeps I (for_each body xs acc).
Proof.
  intros Hbody. revert acc. induction xs as [|x xs IH]; intros acc; simpl.
  - apply keeps_mret.
  - apply keeps_bind; auto.
Qed.

Lemma keeps_async_for {A S} (I : state → Prop) (s : script A)
    (body : A → S → M S) (acc : S) :
  (∀ x a, keeps I (body x a)) → keeps I (async_for s body acc).
Proof.
  intros Hbody. apply keeps_bind; [by apply keeps_for_each|].
  intros a. destruct (stop s); [apply keeps_lift | apply keeps_mret].
Qed.

Lemma keeps_with_stream (I : state → Prop) (n : node) (block : M unit) :
  keeps I block → keeps I (with_stream n block).
Proof.
  intros Hblock. apply keeps_bind; [done|]. intros _.
  destruct (stream_exit n); [apply keeps_lift | apply keeps_mret].
Qed.

Section RunProperties.
Context `{Framework}.

(** *** What one event does *)

Lemma text_or_not (v : pyval) : (∃ a, v = PyStr a) ∨ (∀ a, v ≠ PyStr a).
Proof. destruct v; try (by right); left; eauto. Qed.

Lemma call_strip_returns (v : pyval) (stripped : string) :
  call_strip v = Returns stripped → ∃ a, v = PyStr a ∧ stripped = strip a.
Proof.
  destruct v as [| | |a| | |cls attrs]; simpl; try done.
  - intros [= <-]. by exists a.
  - by destruct (assoc "strip" attrs).
Qed.

Lemma tool_call_part_tool_name (event part : pyval) :
  tool_call_part event = Some part →
  ∃ tool_name, getattr_opt part "tool_name" = Some tool_name.
Proof.
  unfold tool_call_part. destruct (getattr_opt event "part") as [p|]; [|done].
  simpl. destruct (hasattr p "tool_name") eqn:Hhas; [|done].
  intros [= <-]. unfold hasattr in Hhas. apply bool_decide_eq_true in Hhas.
  destruct Hhas as [name Hname]. by exists name.
Qed.

Lemma recorded_call_blank (event part : pyval) (a : string) :
  tool_call_part event = Some part →
  getattr_opt part "args" = Some (PyStr a) →
  strip a = "" ∨ strip a = "{}" →
  recorded_call event = None.
Proof.
  intros Hpart Hargs Hblank. unfold recorded_call. rewrite Hpart. simpl.
  rewrite Hargs. destruct (getattr_opt part "tool_name"); [|done].
  by destruct (decide (strip a = "" ∨ strip a = "{}")).
Qed.

Lemma recorded_call_not_text (event part args : pyval) :
  tool_call_part event = Some part →
  getattr_opt part "args" = Some args →
  (∀ a, args ≠ PyStr a) →
  recorded_call event = None.
Proof.
  intros Hpart Hargs Hnot. unfold recorded_call. rewrite Hpart. simpl.
  rewrite Hargs. destruct (getattr_opt part "tool_name"); [|done].
  destruct args; try done. by destruct (Hnot s).
Qed.

Lemma recorded_call_entry (event entry : pyval) :
  recorded_call event = Some entry → call_entry entry.
Proof.
  unfold recorded_call. destruct (tool_call_part event) as [part|]; [|done].
  simpl. destruct (getattr_opt part "tool_name") as [name|]; [|done].
  destruct (getattr_opt part "args") as [[| | |a| | |]|]; try done.
  destruct (decide (strip a = "" ∨ strip a = "{}")) as [|Hs]; [done|].
  intros [= <-]. exists name, a. split_and!; [done|..]; naive_solver.
Qed.

(** Every event of a tool-call node is skipped, fails before anything is
    recorded, or records one tool call or one tool result and then calls
    the callback for it. *)
Lemma tool_event_effect on_call on_result (event : pyval) (st : state) :
  tool_effect on_call on_result event st
    (tool_event on_call on_result event () st).
Proof.
  unfold tool_event.
  destruct (tool_call_part event) as [part|] eqn:Hpart.
  - assert (recorded_result event = None) as Hresult.
    { unfold recorded_result. by rewrite Hpart. }
    rewrite bind_run. unfold lift, getattr.
    destruct (getattr_opt part "args") as [args|] eqn:Hargs;
      [|apply effect_failed].
    destruct (truthy args) eqn:Htruthy.
    + rewrite bind_run.
      destruct (call_strip args) as [stripped|e] eqn:Hstrip;
        [|apply effect_failed].
      apply call_strip_returns in Hstrip as (a & -> & ->).
      destruct (decide (strip a = "" ∨ strip a = "{}")) as [Hblank|Hs].
      * assert (negb (String.eqb (strip a) "" || String.eqb (strip a) "{}")
                = false) as ->.
        { apply negb_false_iff, orb_true_iff.
          destruct Hblank as [->| ->]; auto. }
        apply effect_skipped; [|done]. by eapply recorded_call_blank.
      * assert (negb (String.eqb (strip a) "" || String.eqb (strip a) "{}")
                = true) as ->.
        { apply negb_true_iff, orb_false_iff.
          split; apply String.eqb_neq; naive_solver. }
        destruct (tool_call_part_tool_name _ _ Hpart) as [name Hname].
        rewrite bind_run, Hname, bind_run. unfold append_tool_call.
        rewrite invoke_notified. apply effect_call; [|done].
        unfold recorded_call. rewrite Hpart. simpl. rewrite Hname, Hargs.
        by destruct (decide (strip a = "" ∨ strip a = "{}")).
    + apply effect_skipped; [|done].
      destruct (text_or_not args) as [[a ->]|Hnot].
      * apply truthy_blank in Htruthy.
        eapply recorded_call_blank; eauto.
      * by eapply recorded_call_not_text.
  - assert (recorded_call event = None) as Hcall.
    { unfold recorded_call. by rewrite Hpart. }
    destruct (tool_result_part event) as [result|] eqn:Hres;
      [|by apply effect_skipped; unfold recorded_result; rewrite ?Hpart, ?Hres].
    rewrite bind_run. unfold lift, getattr.
    destruct (getattr_opt result "content") as [payload|] eqn:Hpayload;
      [|apply effect_failed].
    rewrite bind_run.
    destruct (getattr_opt payload "content") as [segments|] eqn:Hsegments;
      [|apply effect_failed].
    rewrite bind_run.
    destruct (first_item segments) as [segment|] eqn:Hfirst;
      [|apply effect_failed].
    rewrite bind_run.
    destruct (getattr_opt segment "text") as [text|] eqn:Htext;
      [|apply effect_failed].
    rewrite bind_run. unfold append_tool_result. rewrite invoke_notified.
    apply effect_result; [done|].
    unfold recorded_result. rewrite Hpart, Hres. simpl.
    rewrite Hpayload. simpl. rewrite Hsegments. simpl. by rewrite Hfirst.
Qed.

Lemma model_event_not_text cb (event v : pyval) (collected : string) st :
  content_delta event = Some v →
  (∀ d, v ≠ PyStr d) →
  model_event cb event collected st
  = if truthy v then
      (Raises (TypeError ("can only concatenate str (not " +:+ dquote
                            +:+ type_name v +:+ dquote +:+ ") to str")), st)
    else (Returns collected, st).
Proof.
  intros Hdelta Hnot. unfold model_event. rewrite Hdelta.
  destruct (truthy v); [|done]. rewrite bind_run. unfold lift, str_add.
  destruct v; try done. by destruct (Hnot s).
Qed.

(** *** Invariants of a run *)

Lemma keeps_model_event (I : state → Prop) cb :
  (∀ st d, d ≠ "" → I st →
     I (State (response st) (calls st ++ [OnAssistantMessage (PyStr d)]))) →
  ∀ event collected, keeps I (model_event cb event collected).
Proof.
  intros Hmsg event collected st HI.
  destruct (content_delta event) as [v|] eqn:Hdelta.
  - destruct (text_or_not v) as [[d ->]|Hnot].
    + rewrite (model_event_text _ _ _ _ _ Hdelta).
      destruct (decide (d = "")); [done|]. destruct cb; [|done]. by apply Hmsg.
    + rewrite (model_event_not_text _ _ v) by done.
      by destruct (truthy v).
  - by rewrite (model_event_other _ _ _ _ Hdelta).
Qed.

Lemma keeps_tool_event (I : state → Prop) on_call on_result :
  (∀ st entry, call_entry entry → I st →
     I (notified on_call OnToolCall entry
          (with_tool_call entry (response st)) st).2) →
  (∀ st text, I st →
     I (notified on_result OnToolResult text
          (with_tool_result text (response st)) st).2) →
  ∀ event, keeps I (tool_event on_call on_result event ()).
Proof.
  intros Hcall Hresult event st HI.
  destruct (tool_event_effect on_call on_result event st)
    as [| |entry Hentry _|text _ _]; try done.
  - apply Hcall; [|done]. by eapply recorded_call_entry.
  - by apply Hresult.
Qed.

Lemma keeps_process_agent_run (I : state → Prop) cbs :
  (∀ st d, d ≠ "" → I st →
     I (State (response st) (calls st ++ [OnAssistantMessage (PyStr d)]))) →
  (∀ st entry, call_entry entry → I st →
     I (notified (on_tool_call cbs) OnToolCall entry
          (with_tool_call entry (response st)) st).2) →
  (∀ st text, I st →
     I (notified (on_tool_result cbs) OnToolResult text
          (with_tool_result text (response st)) st).2) →
  (∀ st text, I st → I (set_assistant_content text st).2) →
  ∀ run, keeps I (_process_agent_run run cbs).
Proof.
  intros Hmsg Hcall Hresult Htext run.
  apply keeps_async_for. intros n []. unfold process_node.
  destruct (is_model_request_node n); [|destruct (is_call_tools_node n)].
  - apply keeps_with_stream, keeps_bind.
    + apply keeps_async_for. intros. by apply keeps_model_event.
    + intros text st. apply Htext.
  - apply keeps_with_stream, keeps_async_for. intros event [].
    by apply keeps_tool_event.
  - apply keeps_mret.
Qed.

(** The state in which the [try] body of a call ends decides what the call
    returns. *)
Lemma process_input_final self user_input history cbs :
  let st := (try_body self user_input history cbs (State fresh_response [])).2 in
  (process_input self user_input history cbs).2 = calls st
  ∧ match (process_input self user_input history cbs).1 with
    | Returns r =>
        assistant_content r = assistant_content (response st)
        ∧ tool_calls r = tool_calls (response st)
        ∧ tool_results r = tool_results (response st)
    | Raises _ => True
    end.
Proof.
  unfold process_input.
  destruct (try_body _ _ _ _ _) as [[[]|e] st]; simpl; [done|].
  by destruct (is_Exception e).
Qed.

Lemma try_body_keeps (I : state → Prop) self user_input history cbs :
  I (State fresh_response []) →
  (∀ prompt, I (State fresh_response [AgentIter prompt])) →
  (∀ run, keeps I (_process_agent_run run cbs)) →
  I (try_body self user_input history cbs (State fresh_response [])).2.
Proof.
  intros Hinit Hiter Hrun.
  destruct (_prepare_input_with_history user_input history)
    as [prompt|e] eqn:Hprompt.
  - rewrite (try_body_prepared _ _ _ _ _ _ Hprompt). apply Hrun, Hiter.
  - by rewrite (try_body_not_prepared _ _ _ _ _ _ Hprompt).
Qed.

Lemma notified_calls cb entry arg r st :
  calls (notified cb entry arg r st).2
  = calls st ++ match cb with Some _ => [entry arg] | None => [] end.
Proof. unfold notified. destruct cb; simpl; by rewrite ?app_nil_r. Qed.

(** Throughout the [try] body, what the tool callbacks have been called
    with is what the tool lists hold. *)
Lemma try_body_mirrors self user_input history cbs :
  mirrors cbs (try_body self user_input history cbs (State fresh_response [])).2.
Proof.
  apply try_body_keeps.
  { split; unfold mirrored; simpl;
      [by destruct (on_tool_call cbs) | by destruct (on_tool_result cbs)]. }
  { intros prompt. split; unfold mirrored; simpl;
      [by destruct (on_tool_call cbs) | by destruct (on_tool_result cbs)]. }
  intros run. apply keeps_process_agent_run.
  - intros st d _ [Hc Hr']. split; unfold mirrored, tool_call_args,
      tool_result_args in *; simpl; by rewrite omap_app, app_nil_r.
  - intros st entry _ [Hc Hr']. unfold mirrors, mirrored in *.
    rewrite notified_response, notified_calls.
    unfold tool_call_args, tool_result_args in *. rewrite !omap_app.
    rewrite Hc, Hr'. simpl.
    by destruct (on_tool_call cbs), (on_tool_result cbs);
      simpl; rewrite ?app_nil_r.
  - intros st text [Hc Hr']. unfold mirrors, mirrored in *.
    rewrite notified_response, notified_calls.
    unfold tool_call_args, tool_result_args in *. rewrite !omap_app.
    rewrite Hc, Hr'. simpl.
    by destruct (on_tool_call cbs), (on_tool_result cbs);
      simpl; rewrite ?app_nil_r.
  - by intros st text [Hc Hr'].
Qed.

(** X4.  The tool callbacks follow the record: in every call that returns
    a record, [on_tool_call], when supplied, has been called with exactly
    the entries of [tool_calls], in order, and [on_tool_result] with exactly
    the texts of [tool_results], whether or not the call ended with an
    error; a callback that is not supplied is not called. *)
Theorem tool_callbacks_follow_record self (user_input : string)
    (history : pyval) cbs :
  match process_input self user_input history cbs with
  | (Returns r, lg) =>
      tool_call_args lg
      = match on_tool_call cbs with Some _ => tool_calls r | None => [] end
      ∧ tool_result_args lg
        = match on_tool_result cbs with Some _ => tool_results r | None => [] end
  | (Raises _, _) => True
  end.
Proof.
  pose proof (process_input_final self user_input history cbs) as [Hlg Hr].
  pose proof (try_body_mirrors self user_input history cbs)
    as [Hcalls Hresults].
  destruct (process_input self user_input history cbs) as [[r|e] lg];
    [|done].
  simpl in *. destruct Hr as (_ & -> & ->). subst lg. by split.
Qed.

(** X5.  [on_assistant_message] is only ever called with a non-empty text:
    never with an empty delta, with [None] or with a value that is not a
    [str]. *)
Theorem messages_are_nonempty_text self (user_input : string)
    (history : pyval) cbs :
  Forall text_delta
    (message_args (process_input self user_input history cbs).2).
Proof.
  pose proof (process_input_final self user_input history cbs) as [-> _].
  apply (try_body_keeps (λ st, Forall text_delta (message_args (calls st)))).
  - by apply Forall_nil.
  - intros prompt. by apply Forall_nil.
  - intros run. apply keeps_process_agent_run.
    + intros st d Hd HI. simpl. unfold message_args. rewrite omap_app.
      apply Forall_app. split; [done|]. apply Forall_singleton. by exists d.
    + intros st entry _ HI. rewrite notified_calls. unfold message_args.
      rewrite omap_app. apply Forall_app. split; [done|].
      by destruct (on_tool_call cbs).
    + intros st text HI. rewrite notified_calls. unfold message_args.
      rewrite omap_app. apply Forall_app. split; [done|].
      by destruct (on_tool_result cbs).
    + by intros st text HI.
Qed.

(** X6.  An entry of [tool_calls], as the service builds it, is a [dict]
    with the two keys [tool_name] and [args], whose [args] is a text that is
    neither blank nor "{}" once stripped.  [on_tool_call] is only ever
    called with such an entry; and when [on_tool_call] is not supplied, so
    that the caller is handed no entry before the call returns, every entry
    of the [tool_calls] of the record returned is one. *)
Theorem tool_calls_entries_well_formed self (user_input : string)
    (history : pyval) cbs :
  Forall call_entry
    (tool_call_args (process_input self user_input history cbs).2)
  ∧ match (process_input self user_input history cbs).1 with
    | Returns r => on_tool_call cbs = None → Forall call_entry (tool_calls r)
    | Raises _ => True
    end.
Proof.
  pose proof (process_input_final self user_input history cbs) as [Hlg Hr].
  split.
  - rewrite Hlg.
    apply (try_body_keeps
             (λ st, Forall call_entry (tool_call_args (calls st)))).
    + by apply Forall_nil.
    + intros prompt. by apply Forall_nil.
    + intros run. apply keeps_process_agent_run.
      * intros st d _ HI. simpl. unfold tool_call_args in *.
        by rewrite omap_app, app_nil_r.
      * intros st entry Hentry HI. rewrite notified_calls.
        unfold tool_call_args in *. rewrite omap_app. apply Forall_app.
        split; [done|].
        destruct (on_tool_call cbs); [by apply Forall_singleton | done].
      * intros st text HI. rewrite notified_calls.
        unfold tool_call_args in *. rewrite omap_app. apply Forall_app.
        split; [done|]. by destruct (on_tool_result cbs).
      * by intros st text HI.
  - assert (Forall call_entry
              (tool_calls
                 (response
                    (try_body self user_input history cbs
                       (State fresh_response [])).2))) as Hentries.
    { apply (try_body_keeps
               (λ st, Forall call_entry (tool_calls (response st)))).
      - by apply Forall_nil.
      - intros prompt. by apply Forall_nil.
      - intros run. apply keeps_process_agent_run.
        + by intros st d _ HI.
        + intros st entry Hentry HI. rewrite notified_response. simpl.
          apply Forall_app. split; [done|]. by apply Forall_singleton.
        + intros st text HI. by rewrite notified_response.
        + by intros st text HI. }
    destruct (process_input self user_input history cbs).1 as [r|e]; [|done].
    destruct Hr as (_ & -> & _). done.
Qed.

(** X7.  The agent is run at most once per call: [agent.iter] is called
    once, with the prepared prompt, when the prompt could be prepared, and
    not at all when its preparation raised. *)
Theorem agent_run_once self (user_input : string) (history : pyval) cbs :
  prompts (process_input self user_input history cbs).2
  = match _prepare_input_with_history user_input history with
    | Returns prompt => [prompt]
    | Raises _ => []
    end.
Proof.
  pose proof (process_input_final self user_input history cbs) as [-> _].
  destruct (_prepare_input_with_history user_input history)
    as [prompt|e] eqn:Hprompt.
  - rewrite (try_body_prepared _ _ _ _ _ _ Hprompt).
    apply (keeps_process_agent_run (λ st, prompts (calls st) = [prompt]));
      [| | | |done].
    + intros st d _ HI. simpl. unfold prompts in *.
      by rewrite omap_app, HI.
    + intros st entry _ HI. rewrite notified_calls. unfold prompts in *.
      rewrite omap_app, HI. by destruct (on_tool_call cbs).
    + intros st text HI. rewrite notified_calls. unfold prompts in *.
      rewrite omap_app, HI. by destruct (on_tool_result cbs).
    + by intros st text HI.
  - by rewrite (try_body_not_prepared _ _ _ _ _ _ Hprompt).
Qed.

(** X8.  The two handlers stay apart: a model-request node calls neither
    tool callback, and a tool-call node never calls [on_assistant_message]
    and leaves [assistant_content] as it is, whether it completes or
    raises. *)
Theorem handlers_stay_apart cbs (n : node) (st : state) :
  (let st' := (_handle_model_request n (on_assistant_message cbs) st).2 in
   tool_call_args (calls st') = tool_call_args (calls st)
   ∧ tool_result_args (calls st') = tool_result_args (calls st))
  ∧ (let st' := (_handle_tool_call n (on_tool_call cbs) (on_tool_result cbs)
                   st).2 in
     message_args (calls st') = message_args (calls st)
     ∧ assistant_content (response st') = assistant_content (response st)).
Proof.
  split.
  - apply (keeps_with_stream
             (λ st', tool_call_args (calls st') = tool_call_args (calls st)
                     ∧ tool_result_args (calls st')
                       = tool_result_args (calls st))); [|done].
    apply keeps_bind.
    + apply keeps_async_for. intros event collected.
      apply keeps_model_event. intros st' d _ [Hc Hr]. simpl.
      unfold tool_call_args, tool_result_args in *.
      by rewrite !omap_app, Hc, Hr, !app_nil_r.
    + by intros text st' HI.
  - apply (keeps_with_stream
             (λ st', message_args (calls st') = message_args (calls st)
                     ∧ assistant_content (response st')
                       = assistant_content (response st))); [|done].
    apply keeps_async_for.
    intros event []. apply keeps_tool_event.
    + intros st' entry _ [Hm Ht]. rewrite notified_response, notified_calls.
      unfold message_args in *. rewrite omap_app, Hm.
      by destruct (on_tool_call cbs); simpl; rewrite app_nil_r.
    + intros st' text [Hm Ht]. rewrite notified_response, notified_calls.
      unfold message_args in *. rewrite omap_app, Hm.
      by destruct (on_tool_result cbs); simpl; rewrite app_nil_r.
Qed.

(** *** Callbacks that return do not change the record *)















(** *** The tool lists of a completed call *)

Lemma tool_event_returns on_call on_result (event : pyval) st st' :
  tool_event on_call on_result event () st = (Returns (), st') →
  tool_calls (response st')
  = tool_calls (response st) ++ option_list (recorded_call event)
  ∧ tool_results (response st')
    = tool_results (response st) ++ option_list (recorded_result event).
Proof.
  intros Hev.
  pose proof (tool_event_effect on_call on_result event st) as Heffect.
  rewrite Hev in Heffect.
  inversion Heffect as [Hc Hr Hst| |entry Hc Hr Hst|text Hc Hr Hst].
  - rewrite Hc, Hr. simpl. by rewrite !app_nil_r.
  - apply (f_equal (λ p, response p.2)) in Hst.
    rewrite notified_response in Hst. simpl in Hst. rewrite <- Hst, Hc, Hr.
    simpl. by rewrite app_nil_r.
  - apply (f_equal (λ p, response p.2)) in Hst.
    rewrite notified_response in Hst. simpl in Hst. rewrite <- Hst, Hc, Hr.
    simpl. by rewrite app_nil_r.
Qed.

Lemma omap_cons_option_list {A B} (f : A → option B) (x : A) (l : list A) :
  omap f (x :: l) = option_list (f x) ++ omap f l.
Proof. simpl. by destruct (f x). Qed.

Lemma tool_events_recorded on_call on_result (events : list pyval) st st' :
  for_each (tool_event on_call on_result) events () st = (Returns (), st') →
  tool_calls (response st')
  = tool_calls (response st) ++ omap recorded_call events
  ∧ tool_results (response st')
    = tool_results (response st) ++ omap recorded_result events.
Proof.
  revert st. induction events as [|event events IH]; intros st.
  - simpl. intros [= <-]. by rewrite !app_nil_r.
  - simpl for_each. rewrite bind_run.
    destruct (tool_event on_call on_result event () st) as [[[]|e] st1]
      eqn:Hev; [|done].
    intros [Hc Hr]%IH. apply tool_event_returns in Hev as [Hc1 Hr1].
    rewrite Hc, Hr, Hc1, Hr1, !omap_cons_option_list, <- !app_assoc. done.
Qed.

Lemma nodes_recorded cbs (nodes : list node) st st' :
  for_each (process_node cbs) nodes () st = (Returns (), st') →
  tool_calls (response st')
  = tool_calls (response st) ++ omap recorded_call (tool_events nodes)
  ∧ tool_results (response st')
    = tool_results (response st) ++ omap recorded_result (tool_events nodes).
Proof.
  revert st. induction nodes as [|n nodes IH]; intros st.
  - simpl. intros [= <-]. by rewrite !app_nil_r.
  - simpl for_each. rewrite bind_run.
    destruct (process_node cbs n () st) as [[[]|e] st1] eqn:Hnode; [|done].
    intros [Hc Hr]%IH. rewrite Hc, Hr. simpl tool_events.
    rewrite !omap_app, !app_assoc. revert Hnode. unfold process_node.
    destruct (is_model_request_node n).
    + intros ->%handle_model_request_returns. simpl. by rewrite !app_nil_r.
    + destruct (is_call_tools_node n).
      * unfold _handle_tool_call, tool_call_block.
        intros [[[-> ->]%tool_events_recorded _]%async_for_returns _]
                 %with_stream_returns.
        done.
      * intros [= <-]. simpl. by rewrite !app_nil_r.
Qed.

(** A call that ends without [error] is one whose run was read to its end. *)
Lemma process_input_without_error self user_input history cbs r lg :
  process_input self user_input history cbs = (Returns r, lg) →
  error r = None →
  try_body self user_input history cbs (State fresh_response [])
  = (Returns (), State r lg).
Proof.
  unfold process_input.
  destruct (try_body _ _ _ _ _) as [[[]|e] [r' lg']].
  - by intros [= -> ->].
  - destruct (is_Exception e); [|done]. by intros [= <- _].
Qed.

(** X10.  After a call that ended without error, the tool-call events of
    the run's tool-call nodes whose stripped argument text is neither empty
    nor "{}" are, in order, what was recorded: [tool_calls] has one entry
    for each of them; [on_tool_call], when supplied, was called with exactly
    their entries, in order; and when it is not supplied, so that the caller
    is handed no entry before the call returns, [tool_calls] holds exactly
    their entries.  The same holds of [tool_results], [on_tool_result] and
    the first texts of the tool-result events. *)
Theorem completed_call_tool_lists self (user_input : string)
    (history : pyval) cbs (prompt : string) (r : Response) (lg : list call) :
  _prepare_input_with_history user_input history = Returns prompt →
  process_input self user_input history cbs = (Returns r, lg) →
  error r = None →
  let events := tool_events (items (Agent_iter (agent self) prompt)) in
  length (tool_calls r) = length (omap recorded_call events)
  ∧ length (tool_results r) = length (omap recorded_result events)
  ∧ match on_tool_call cbs with
    | Some _ => tool_call_args lg = omap recorded_call events
    | None => tool_call_args lg = [] ∧ tool_calls r = omap recorded_call events
    end
  ∧ match on_tool_result cbs with
    | Some _ => tool_result_args lg = omap recorded_result events
    | None =>
        tool_result_args lg = []
        ∧ tool_results r = omap recorded_result events
    end.
Proof.
  intros Hprompt Hcall Herror events.
  pose proof (try_body_mirrors self user_input history cbs) as [Hmc Hmr].
  apply process_input_without_error in Hcall; [|done].
  rewrite Hcall in Hmc, Hmr. unfold mirrored in Hmc, Hmr. simpl in Hmc, Hmr.
  rewrite (try_body_prepared _ _ _ _ _ _ Hprompt) in Hcall.
  apply async_for_returns in Hcall as [Hcall _].
  apply nodes_recorded in Hcall as [Hcalls Hresults].
  simpl in Hcalls, Hresults. fold events in Hcalls, Hresults.
  split_and!.
  - by rewrite Hcalls.
  - by rewrite Hresults.
  - destruct (on_tool_call cbs); [by rewrite Hmc | done].
  - destruct (on_tool_result cbs); [by rewrite Hmr | done].
Qed.

(** *** Events of another shape *)

(** X11.  A tool-call event whose arguments are not a text: when the part
    has no [args] the event raises [AttributeError]; when [args] is falsy
    ([None], an empty [dict]) the event is skipped; when it is truthy and
    has no [strip] (a non-empty [dict]) the event raises [AttributeError].
    In each case nothing is recorded and no callback is called. *)
Theorem tool_call_args_not_text on_call on_result (event part : pyval)
    (st : state) :
  tool_call_part event = Some part →
  (∀ a, getattr_opt part "args" ≠ Some (PyStr a)) →
  (∀ args, getattr_opt part "args" = Some args →
           getattr_opt args "strip" = None) →
  tool_event on_call on_result event () st
  = (match getattr_opt part "args" with
     | None => Raises (no_attribute part "args")
     | Some args =>
         if truthy args then Raises (no_attribute args "strip")
         else Returns ()
     end, st).
Proof.
  intros Hpart Hnot Hstrip. unfold tool_event. rewrite Hpart.
  rewrite bind_run. unfold lift, getattr.
  destruct (getattr_opt part "args") as [args|] eqn:Hargs; [|done].
  destruct (truthy args); [|done]. rewrite bind_run.
  specialize (Hstrip args eq_refl).
  destruct args as [| | |a| | |cls attrs]; simpl; try done.
  - by destruct (Hnot a).
  - simpl in Hstrip. by rewrite Hstrip.
Qed.

(** X12.  A delta that is truthy and not a text stops a model-request node:
    after the text deltas [ds] before it were sent to the callback,
    [_handle_model_request] raises [TypeError]; the callback is not called
    for that delta nor for a later one, and the record is left as it was. *)
Theorem non_text_delta_stops_node (n : node) (cb : option callback)
    (before after : list pyval) (event v : pyval) (ds : list string)
    (st : state) :
  items (stream n) = before ++ event :: after →
  omap content_delta before = PyStr <$> ds →
  (∀ f lg d, cb = Some f → f lg (PyStr d) = None) →
  content_delta event = Some v →
  truthy v = true →
  (∀ d, v ≠ PyStr d) →
  ∃ e, _handle_model_request n cb st
       = (Raises e, State (response st) (calls st ++ messages cb ds))
       ∧ exn_type e = "TypeError" ∧ is_Exception e = true.
Proof.
  intros Hitems Hds Hcb Hdelta Htruthy Hnot.
  unfold _handle_model_request. rewrite with_stream_run.
  unfold model_request_block, async_for.
  rewrite !bind_run, Hitems, for_each_app.
  rewrite (model_events_run cb before ds "" st Hds Hcb). simpl for_each.
  rewrite bind_run, (model_event_not_text _ _ v) by done.
  rewrite Htruthy. eexists. by split_and!.
Qed.

(** X13.  An event that is a tool-call event and also carries a result is
    handled as a tool call only: nothing is added to [tool_results] and
    [on_tool_result] is not called. *)
Theorem tool_call_event_result_ignored on_call on_result (event part : pyval)
    (st : state) :
  tool_call_part event = Some part →
  let st' := (tool_event on_call on_result event () st).2 in
  tool_results (response st') = tool_results (response st)
  ∧ tool_result_args (calls st') = tool_result_args (calls st).
Proof.
  intros Hpart st'. subst st'.
  assert (recorded_result event = None) as Hnone.
  { unfold recorded_result. by rewrite Hpart. }
  destruct (tool_event_effect on_call on_result event st)
    as [| |entry _ _|text _ Hsome]; try done.
  - rewrite notified_response, notified_calls. unfold tool_result_args.
    rewrite omap_app. by destruct on_call; simpl; rewrite app_nil_r.
  - by rewrite Hnone in Hsome.
Qed.

(** *** How a call ends *)

Lemma try_body_keeps_error self user_input history cbs :
  error (response (try_body self user_input history cbs
                     (State fresh_response [])).2) = None.
Proof.
  apply (try_body_keeps (λ st, error (response st) = None)); [done..|].
  intros run. apply keeps_process_agent_run.
  - by intros st d _ HI.
  - intros st entry _ HI. by rewrite notified_response.
  - intros st text HI. by rewrite notified_response.
  - by intros st text HI.
Qed.

(** X14.  A call ends in one of three ways.  It returns a record without
    [error] exactly when the prompt was prepared, every node of the run was
    processed and the run ended normally.  It returns a record with [error]
    only for an exception derived from [Exception] raised while preparing
    the prompt, by the run's iterator or while processing a node, and
    [error] is then [str(e)].  It raises only an exception that is not
    derived from [Exception], raised in one of the same three places. *)
Theorem process_input_outcomes self (user_input : string) (history : pyval)
    cbs :
  match process_input self user_input history cbs with
  | (Returns r, lg) =>
      match error r with
      | None =>
          ∃ prompt,
            _prepare_input_with_history user_input history = Returns prompt
            ∧ for_each (process_node cbs)
                (items (Agent_iter (agent self) prompt)) ()
                (State fresh_response [AgentIter prompt])
              = (Returns (), State r lg)
            ∧ stop (Agent_iter (agent self) prompt) = None
      | Some msg =>
          ∃ e completed st,
            raised self user_input history cbs e completed st
            ∧ is_Exception e = true ∧ msg = exn_str e
            ∧ r = set_error msg (response st) ∧ lg = calls st
      end
  | (Raises e, lg) =>
      is_Exception e = false
      ∧ ∃ completed st,
          raised self user_input history cbs e completed st ∧ lg = calls st
  end.
Proof.
  pose proof (try_body_keeps_error self user_input history cbs) as Herror.
  unfold process_input.
  destruct (try_body self user_input history cbs (State fresh_response []))
    as [[[]|e] st] eqn:Hbody; simpl in *.
  - rewrite Herror.
    destruct (_prepare_input_with_history user_input history)
      as [prompt|e] eqn:Hprompt.
    + rewrite (try_body_prepared _ _ _ _ _ _ Hprompt) in Hbody.
      apply async_for_returns in Hbody as [Hbody Hstop].
      exists prompt. split_and!; [done| |done]. by destruct st.
    + by rewrite (try_body_not_prepared _ _ _ _ _ _ Hprompt) in Hbody.
  - apply try_body_raised in Hbody as [completed Hraised].
    destruct (is_Exception e) eqn:He; simpl.
    + exists e, completed, st. by split_and!.
    + split; [done|]. by exists completed, st.
Qed.

End RunProperties.

(** ** Instances of the further properties *)


(** X10, two instances: the calculation records one call and one result;
    with callbacks they were called with them, and without callbacks the
    record holds them. *)
Lemma completed_call_tool_lists_witness :
  (length (tool_calls final_ok) = 1 ∧ length (tool_results final_ok) = 1
   ∧ tool_call_args log_ok = omap recorded_call (tool_events (items run_ok))
   ∧ tool_result_args log_ok
     = omap recorded_result (tool_events (items run_ok)))
  ∧ (length (tool_calls final_ok) = 1 ∧ length (tool_results final_ok) = 1
     ∧ (tool_call_args [AgentIter "2+2"] = []
        ∧ tool_calls final_ok
          = omap recorded_call (tool_events (items run_ok)))
     ∧ tool_result_args [AgentIter "2+2"] = []
       ∧ tool_results final_ok
         = omap recorded_result (tool_events (items run_ok))).
Proof.
  split.
  - exact (completed_call_tool_lists (H := scripted) (service run_ok) "2+2"
             PyNone listening "2+2" final_ok log_ok eq_refl eq_refl eq_refl).
  - exact (completed_call_tool_lists (H := scripted) (service run_ok) "2+2"
             PyNone no_callbacks "2+2" final_ok [AgentIter "2+2"]
             eq_refl eq_refl eq_refl).
Defined.

(** X11, an instance: the arguments of the call are a [dict]. *)
Lemma tool_call_args_not_text_witness :
  ∃ e, tool_event (Some quiet) None
         (tool_call_with_args (PyDict [("a", PyInt 2)])) () start
       = (Raises e, start)
       ∧ exn_type e = "AttributeError".
Proof.
  eexists. split.
  - apply (tool_call_args_not_text (Some quiet) None
             (tool_call_with_args (PyDict [("a", PyInt 2)]))
             (PyObj "ToolCallPart"
                [("tool_name", PyStr "add");
                 ("args", PyDict [("a", PyInt 2)])]) start).
    + reflexivity.
    + intros a. discriminate.
    + intros args [= <-]. reflexivity.
  - reflexivity.
Defined.

(** X12, an instance: a text delta, then a delta that is a number. *)
Lemma non_text_delta_stops_node_witness :
  ∃ e, _handle_model_request
         (model_request_node
            [text_delta_event (PyStr "2+2"); text_delta_event (PyInt 4);
             text_delta_event (PyStr " is 4")] None)
         (Some quiet) start
       = (Raises e, State fresh_response [OnAssistantMessage (PyStr "2+2")])
       ∧ exn_type e = "TypeError" ∧ is_Exception e = true.
Proof.
  apply (non_text_delta_stops_node
           (model_request_node
              [text_delta_event (PyStr "2+2"); text_delta_event (PyInt 4);
               text_delta_event (PyStr " is 4")] None)
           (Some quiet) [text_delta_event (PyStr "2+2")]
           [text_delta_event (PyStr " is 4")] (text_delta_event (PyInt 4))
           (PyInt 4) ["2+2"] start); try reflexivity.
  - by intros f lg d [= <-].
  - intros d. discriminate.
Defined.

(** X13, an instance: an event with a [part] and a [result]. *)
Lemma tool_call_event_result_ignored_witness :
  tool_event (Some quiet) (Some quiet) call_and_result_event () start
  = (Returns (),
     State {| assistant_content := ""; tool_calls := [add_call];
              tool_results := []; error := None |} [OnToolCall add_call])
  ∧ tool_results
      (response (tool_event (Some quiet) (Some quiet) call_and_result_event ()
                   start).2) = []
  ∧ tool_result_args
      (calls (tool_event (Some quiet) (Some quiet) call_and_result_event ()
                start).2) = [].
Proof.
  split; [reflexivity|].
  exact (tool_call_event_result_ignored (Some quiet) (Some quiet)
           call_and_result_event
           (PyObj "ToolCallPart"
              [("tool_name", PyStr "add"); ("args", PyStr add_args)])
           start eq_refl).
Defined.
